(** * m4vgalib: the scan-out core of [vga.cc]

    A shallow embedding of the driver state and of the interrupt handlers
    of [src/vga.cc] (with the declarations of [src/vga.h]), followed by the
    properties of the vertical state machine, the band scheduler, the
    working-row/scan-row hand-off and the band-list hand-back protocol.

    Conventions.
    - [unsigned] and [Word] values are integers reduced modulo 2^32 ([u32]);
      [static_cast<unsigned short>] is reduction modulo 2^16 ([u16]).
    - Pointers are addresses, [0] is [nullptr].
    - The driver's file-level statics, the few peripheral registers the
      handlers write and the externally owned band storage are the fields
      of one record, [Vga], which every function takes and returns.
    - [log] records, in program order, the peripheral register writes, the
      stores to the [volatile]/atomic driver variables and the
      wait-for-interrupt instructions a function performs. *)

From Stdlib Require Import ZArith List Bool Lia.
Import ListNotations.
Local Open Scope Z_scope.

(** ** Machine integers *)

Definition u32 (z : Z) : Z := z mod 2 ^ 32.
Definition u16 (z : Z) : Z := z mod 2 ^ 16.

(** ** Driver state and configuration *)

(* Used to adjust size of scan_buffer. *)
Definition max_pixels_per_line : Z := 800.
(* Used to size rasterization plan. *)
Definition max_lines : Z := 600.

Inductive Polarity := positive | negative.

(** Modelled from the spec: [vga/timing.h] is not among the sources.  The
    fields are the ones [vga.cc] reads; the line and pixel counts are
    16-bit unsigned values ([Timing_ok]), which is why the source narrows
    [video_start_line - 1] back with [static_cast<unsigned short>]. The
    clock configuration token is not modelled. *)
Record Timing := mkTiming {
  line_pixels : Z;
  sync_pixels : Z;
  back_porch_pixels : Z;
  video_lead : Z;
  video_pixels : Z;
  hsync_polarity : Polarity;
  vsync_start_line : Z;
  vsync_end_line : Z;
  video_start_line : Z;
  video_end_line : Z;
  vsync_polarity : Polarity
}.

Definition is_u16 (z : Z) : Prop := 0 <= z < 2 ^ 16.

Definition Timing_ok (t : Timing) : Prop :=
  is_u16 (line_pixels t) /\ is_u16 (sync_pixels t) /\
  is_u16 (back_porch_pixels t) /\ is_u16 (video_lead t) /\
  is_u16 (video_pixels t) /\
  is_u16 (vsync_start_line t) /\ is_u16 (vsync_end_line t) /\
  is_u16 (video_start_line t) /\ is_u16 (video_end_line t).

(* The vertical timing state.  This is a Gray code and the bits have
   meaning. *)
Inductive State := blank | starting | active | finishing.

Definition State_code (s : State) : Z :=
  match s with
  | blank => 0     (* 0b00 *)
  | starting => 1  (* 0b01 *)
  | active => 3    (* 0b11 *)
  | finishing => 2 (* 0b10 *)
  end.

(* Should we be producing a video signal? *)
Definition is_displayed_state (s : State) : bool :=
  negb (Z.land (State_code s) 2 =? 0).

(* Should we be rendering a scanline? *)
Definition is_rendered_state (s : State) : bool :=
  negb (Z.land (State_code s) 1 =? 0).

(* struct Band of vga.h *)
Record Band := mkBand {
  rasterizer : Z;
  line_count : Z;
  next : Z
}.

(** Modelled from the spec: [vga/rasterizer.h] is not among the sources.
    A Line Shape is the pair {length, horizontal_offset} a rasterizer
    returns; [vga.cc] reads it as [.length] (unsigned) and [.offset]. *)
Record LineShape := mkLineShape {
  offset : Z;
  length : Z
}.

(* The intermediate buffer used during rasterization. *)
Record Working := mkWorking {
  left_pad : list Z;   (* Pixel left_pad[16] *)
  buffer : list Z;     (* Pixel buffer[max_pixels_per_line] *)
  right_pad : list Z   (* Pixel right_pad[16] *)
}.

(** The rasterizer capability: the virtual call
    [r->rasterize(visible_line, working.buffer)] on the object at address
    [r].  It receives a pointer into the [working] structure and returns
    the Line Shape. *)
Class Rasterizers := rasterize : Z -> Z -> Working -> LineShape * Working.

(* The compare and period registers of one general-purpose timer. *)
Record GpTimer := mkGpTimer {
  psc : Z;
  arr : Z;
  ccr1 : Z;
  ccr2 : Z;
  ccr3 : Z
}.

Inductive Event :=
| Tim4WriteCcr2 (v : Z)       (* tim4.write_ccr2(v) *)
| PendSvSet                   (* scb.write_icsr(...with_pendsvset(true)) *)
| StoreState (s : State)      (* vga::state = s *)
| StoreLine (n : Z)           (* vga::current_line = n *)
| ToggleVsync                 (* gpiob.toggle(Gpio::p7) *)
| StoreBandTaken (b : bool)   (* vga::band_list_taken = b *)
| DmaClearFlags               (* dma2.write_lifcr(...) *)
| DmaEnable                   (* dma2.stream1.write_cr(...with_en(true)) *)
| DmaWriteNdtr (n : Z)        (* dma2.stream1.write_ndtr(n) *)
| Wfi.                        (* etl::armv7m::wait_for_interrupt() *)

Record Vga := mkVga {
  (* statics of vga.cc *)
  current_timing : Timing;
  current_line : Z;
  state : State;
  scan_buffer : list Z;            (* Pixel scan_buffer[max_pixels_per_line + 4] *)
  working : Working;
  working_buffer_shape : LineShape;
  band_list_head : Z;
  current_band : Band;
  band_list_taken : bool;
  (* peripherals *)
  tim3 : GpTimer;
  tim4 : GpTimer;
  dma_ndtr : Z;                    (* dma2.stream1 NDTR *)
  dma_en : bool;                   (* dma2.stream1 CR.EN *)
  vsync_pin : bool;                (* gpiob output bit 7 *)
  pendsv_pending : bool;
  (* the caller's band storage, read through Band const * *)
  bands : Z -> Band;
  log : list Event
}.

Definition set_current_timing (x : Timing) (d : Vga) : Vga :=
  mkVga x (current_line d) (state d) (scan_buffer d) (working d)
    (working_buffer_shape d) (band_list_head d) (current_band d)
    (band_list_taken d) (tim3 d) (tim4 d) (dma_ndtr d) (dma_en d)
    (vsync_pin d) (pendsv_pending d) (bands d) (log d).

Definition set_current_line (x : Z) (d : Vga) : Vga :=
  mkVga (current_timing d) x (state d) (scan_buffer d) (working d)
    (working_buffer_shape d) (band_list_head d) (current_band d)
    (band_list_taken d) (tim3 d) (tim4 d) (dma_ndtr d) (dma_en d)
    (vsync_pin d) (pendsv_pending d) (bands d) (log d).

Definition set_state (x : State) (d : Vga) : Vga :=
  mkVga (current_timing d) (current_line d) x (scan_buffer d) (working d)
    (working_buffer_shape d) (band_list_head d) (current_band d)
    (band_list_taken d) (tim3 d) (tim4 d) (dma_ndtr d) (dma_en d)
    (vsync_pin d) (pendsv_pending d) (bands d) (log d).

Definition set_scan_buffer (x : list Z) (d : Vga) : Vga :=
  mkVga (current_timing d) (current_line d) (state d) x (working d)
    (working_buffer_shape d) (band_list_head d) (current_band d)
    (band_list_taken d) (tim3 d) (tim4 d) (dma_ndtr d) (dma_en d)
    (vsync_pin d) (pendsv_pending d) (bands d) (log d).

Definition set_working (x : Working) (d : Vga) : Vga :=
  mkVga (current_timing d) (current_line d) (state d) (scan_buffer d) x
    (working_buffer_shape d) (band_list_head d) (current_band d)
    (band_list_taken d) (tim3 d) (tim4 d) (dma_ndtr d) (dma_en d)
    (vsync_pin d) (pendsv_pending d) (bands d) (log d).

Definition set_working_buffer_shape (x : LineShape) (d : Vga) : Vga :=
  mkVga (current_timing d) (current_line d) (state d) (scan_buffer d)
    (working d) x (band_list_head d) (current_band d)
    (band_list_taken d) (tim3 d) (tim4 d) (dma_ndtr d) (dma_en d)
    (vsync_pin d) (pendsv_pending d) (bands d) (log d).

Definition set_band_list_head (x : Z) (d : Vga) : Vga :=
  mkVga (current_timing d) (current_line d) (state d) (scan_buffer d)
    (working d) (working_buffer_shape d) x (current_band d)
    (band_list_taken d) (tim3 d) (tim4 d) (dma_ndtr d) (dma_en d)
    (vsync_pin d) (pendsv_pending d) (bands d) (log d).

Definition set_current_band (x : Band) (d : Vga) : Vga :=
  mkVga (current_timing d) (current_line d) (state d) (scan_buffer d)
    (working d) (working_buffer_shape d) (band_list_head d) x
    (band_list_taken d) (tim3 d) (tim4 d) (dma_ndtr d) (dma_en d)
    (vsync_pin d) (pendsv_pending d) (bands d) (log d).

Definition set_band_list_taken (x : bool) (d : Vga) : Vga :=
  mkVga (current_timing d) (current_line d) (state d) (scan_buffer d)
    (working d) (working_buffer_shape d) (band_list_head d)
    (current_band d) x (tim3 d) (tim4 d) (dma_ndtr d) (dma_en d)
    (vsync_pin d) (pendsv_pending d) (bands d) (log d).

Definition set_tim3 (x : GpTimer) (d : Vga) : Vga :=
  mkVga (current_timing d) (current_line d) (state d) (scan_buffer d)
    (working d) (working_buffer_shape d) (band_list_head d)
    (current_band d) (band_list_taken d) x (tim4 d) (dma_ndtr d)
    (dma_en d) (vsync_pin d) (pendsv_pending d) (bands d) (log d).

Definition set_tim4 (x : GpTimer) (d : Vga) : Vga :=
  mkVga (current_timing d) (current_line d) (state d) (scan_buffer d)
    (working d) (working_buffer_shape d) (band_list_head d)
    (current_band d) (band_list_taken d) (tim3 d) x (dma_ndtr d)
    (dma_en d) (vsync_pin d) (pendsv_pending d) (bands d) (log d).

Definition set_dma_ndtr (x : Z) (d : Vga) : Vga :=
  mkVga (current_timing d) (current_line d) (state d) (scan_buffer d)
    (working d) (working_buffer_shape d) (band_list_head d)
    (current_band d) (band_list_taken d) (tim3 d) (tim4 d) x
    (dma_en d) (vsync_pin d) (pendsv_pending d) (bands d) (log d).

Definition set_dma_en (x : bool) (d : Vga) : Vga :=
  mkVga (current_timing d) (current_line d) (state d) (scan_buffer d)
    (working d) (working_buffer_shape d) (band_list_head d)
    (current_band d) (band_list_taken d) (tim3 d) (tim4 d) (dma_ndtr d)
    x (vsync_pin d) (pendsv_pending d) (bands d) (log d).

Definition set_vsync_pin (x : bool) (d : Vga) : Vga :=
  mkVga (current_timing d) (current_line d) (state d) (scan_buffer d)
    (working d) (working_buffer_shape d) (band_list_head d)
    (current_band d) (band_list_taken d) (tim3 d) (tim4 d) (dma_ndtr d)
    (dma_en d) x (pendsv_pending d) (bands d) (log d).

Definition set_pendsv_pending (x : bool) (d : Vga) : Vga :=
  mkVga (current_timing d) (current_line d) (state d) (scan_buffer d)
    (working d) (working_buffer_shape d) (band_list_head d)
    (current_band d) (band_list_taken d) (tim3 d) (tim4 d) (dma_ndtr d)
    (dma_en d) (vsync_pin d) x (bands d) (log d).

Definition emit (e : Event) (d : Vga) : Vga :=
  mkVga (current_timing d) (current_line d) (state d) (scan_buffer d)
    (working d) (working_buffer_shape d) (band_list_head d)
    (current_band d) (band_list_taken d) (tim3 d) (tim4 d) (dma_ndtr d)
    (dma_en d) (vsync_pin d) (pendsv_pending d) (bands d) (log d ++ [e]).

(** Stores to the volatile and atomic driver variables. *)
Definition store_state (s : State) (d : Vga) : Vga :=
  emit (StoreState s) (set_state s d).

Definition store_current_line (n : Z) (d : Vga) : Vga :=
  emit (StoreLine n) (set_current_line n d).

Definition store_band_list_taken (b : bool) (d : Vga) : Vga :=
  emit (StoreBandTaken b) (set_band_list_taken b d).

(** Peripheral register writes. *)
Definition write_ccr2 (v : Z) (t : GpTimer) : GpTimer :=
  mkGpTimer (psc t) (arr t) (ccr1 t) (u32 v) (ccr3 t).

Definition tim4_write_ccr2 (v : Z) (d : Vga) : Vga :=
  emit (Tim4WriteCcr2 (u32 v)) (set_tim4 (write_ccr2 v (tim4 d)) d).

Definition scb_pend_sv (d : Vga) : Vga :=
  emit PendSvSet (set_pendsv_pending true d).

Definition gpiob_toggle_p7 (d : Vga) : Vga :=
  emit ToggleVsync (set_vsync_pin (negb (vsync_pin d)) d).

Definition dma_write_ndtr (n : Z) (d : Vga) : Vga :=
  emit (DmaWriteNdtr (u32 n)) (set_dma_ndtr (u32 n) d).

Definition wait_for_interrupt (d : Vga) : Vga := emit Wfi d.

(** ** Horizontal timing interrupt *)

Definition start_of_active_video (d : Vga) : Vga :=
  (* This only matters in displayed states. *)
  if negb (is_displayed_state (state d)) then d
  else
    (* Clear stream 1 flags. *)
    let d := emit DmaClearFlags d in
    (* Configure and enable the DMA stream. *)
    emit DmaEnable (set_dma_en true d).

Definition end_of_active_video (d : Vga) : Vga :=
  let timing := current_timing d in
  (* Apply timing changes requested by the last rasterizer. *)
  let d := tim4_write_ccr2 (sync_pixels timing
                            + back_porch_pixels timing - video_lead timing
                            + offset (working_buffer_shape d)) d in
  (* Pend a PendSV to process hblank tasks. *)
  let d := scb_pend_sv d in
  (* CC3 indicates end of active video (start of front porch). *)
  let line := current_line d in
  let '(d, line) :=
    if line =? 0 then
      (* Start of frame!  Time to stop displaying pixels. *)
      (store_state blank d, line)
    else if (line =? vsync_start_line timing)
            || (line =? vsync_end_line timing) then
      (* Either edge of vsync pulse. *)
      (gpiob_toggle_p7 d, line)
    else if line =? u16 (video_start_line timing - 1) then
      (* Time to start generating the first scan buffer. *)
      let d := store_state starting d in
      let d := if negb (band_list_head d =? 0)
               then set_current_band (bands d (band_list_head d)) d
               else set_current_band (mkBand 0 0 0) d in
      (store_band_list_taken true d, line)
    else if line =? video_start_line timing then
      (* Time to start output. *)
      (store_state active d, line)
    else if line =? u16 (video_end_line timing - 1) then
      (* Time to stop rendering new scan buffers. *)
      (store_state finishing d, u32 (-1)) (* Make line roll over to zero. *)
    else (d, line) in
  store_current_line (u32 (line + 1)) d.

(* etl_stm32f4xx_tim3_handler: acknowledge, then idle until preempted. *)
Definition etl_stm32f4xx_tim3_handler (d : Vga) : Vga :=
  wait_for_interrupt d.

(* etl_stm32f4xx_tim4_handler, given the two flags it reads from SR. *)
Definition etl_stm32f4xx_tim4_handler (cc2if cc3if : bool) (d : Vga) : Vga :=
  if cc2if then start_of_active_video d
  else if cc3if then end_of_active_video d
  else d.

(** ** Row buffers

    Rows are lists of byte pixels.  A word access at word index [i] covers
    the four bytes from byte index [4 * i] (the core is little-endian).
    The source performs no bounds checks; an access beyond the end of a
    row is undefined there, and the statements below that depend on a
    store carry the bound that makes it fall inside the row. *)

Definition word_bytes (v : Z) : list Z :=
  [v mod 256; (v / 2 ^ 8) mod 256; (v / 2 ^ 16) mod 256; (v / 2 ^ 24) mod 256].

(* ((Word * ) row)[i] = v *)
Definition store_word (row : list Z) (i : Z) (v : Z) : list Z :=
  firstn (Z.to_nat (4 * i)) row ++ word_bytes v
    ++ skipn (Z.to_nat (4 * i + 4)) row.

(** Modelled from the spec: [vga/copy_words.h] is not among the sources.
    The spec calls it a word-granularity bulk copy:
    [copy_words(source, dest, count)] copies [count] words from the start
    of [source] over the start of [dest]. *)
Definition copy_words (source dest : list Z) (count : Z) : list Z :=
  firstn (Z.to_nat (4 * count)) source ++ skipn (Z.to_nat (4 * count)) dest.

(** ** Band scheduler *)

(** [get_next_rasterizer] follows [next] pointers through the caller's
    band storage and recurses; [fuel] bounds the number of calls, and
    [None] means the bound was reached. *)
Fixpoint get_next_rasterizer (fuel : nat) (d : Vga) : option (Z * Vga) :=
  match fuel with
  | O => None
  | S fuel' =>
      if negb (line_count (current_band d) =? 0) then
        let b := current_band d in
        let d := set_current_band
                   (mkBand (rasterizer b) (line_count b - 1) (next b)) d in
        Some (rasterizer (current_band d), d)
      else if negb (next (current_band d) =? 0) then
        let d := set_current_band (bands d (next (current_band d))) d in
        get_next_rasterizer fuel' d
      else Some (0, d)
  end.

(** ** PendSV: the deferred render task *)

(* The weak default of vga_hblank_interrupt. *)
Definition default_hblank_interrupt (d : Vga) : Vga := d.
Definition vga_hblank_interrupt (d : Vga) : Vga := default_hblank_interrupt d.

(* Flip working_buffer into scan_buffer. *)
Definition flip_working_buffer (d : Vga) : Vga :=
  let words := length (working_buffer_shape d) / 4 in
  let d := set_scan_buffer (store_word (scan_buffer d) words 0) d in
  let d := set_scan_buffer
             (copy_words (buffer (working d)) (scan_buffer d) words) d in
  dma_write_ndtr (words + 1) d.

(* The first block of the handler. *)
Definition pend_sv_flip (d : Vga) : Vga :=
  if is_rendered_state (state d) then flip_working_buffer d else d.

(* The last block of the handler. *)
Definition pend_sv_render `{Rasterizers} (fuel : nat) (d : Vga) : option Vga :=
  if is_rendered_state (state d) then
    let timing := current_timing d in
    let line := current_line d in
    if (video_start_line timing <=? line) && (line <=? video_end_line timing)
    then
      let visible_line := u32 (line - video_start_line timing) in
      match get_next_rasterizer fuel d with
      | None => None
      | Some (r, d) =>
          if negb (r =? 0) then
            let '(shape, w) := rasterize r visible_line (working d) in
            Some (set_working_buffer_shape shape (set_working w d))
          else Some d
      end
    else Some d
  else Some d.

Definition etl_armv7m_pend_sv_handler `{Rasterizers} (fuel : nat) (d : Vga)
  : option Vga :=
  let d := pend_sv_flip d in
  let d := vga_hblank_interrupt d in
  pend_sv_render fuel d.

(** ** Driver API *)

Definition reset_timer : GpTimer := mkGpTimer 0 0 0 0 0.

(* Safely shut down a timer: rcc.enter_reset(p). *)
Definition disable_h_timer (tim : GpTimer) : GpTimer := reset_timer.

(* Sets up one of the two horizontal timers. *)
Definition configure_h_timer (timing : Timing) (tim : GpTimer) : GpTimer :=
  mkGpTimer
    (u32 (2 - 1))                        (* write_psc *)
    (u32 (line_pixels timing - 1))       (* write_arr *)
    (u32 (sync_pixels timing))           (* write_ccr1 *)
    (u32 (sync_pixels timing
          + back_porch_pixels timing - video_lead timing))  (* write_ccr2 *)
    (u32 (sync_pixels timing
          + back_porch_pixels timing + video_pixels timing)). (* write_ccr3 *)

(* row[i] = v for one pixel; an index outside the row stores nothing. *)
Definition store_pixel (row : list Z) (i : Z) (v : Z) : list Z :=
  if (0 <=? i) && (i <? Z.of_nat (List.length row))
  then firstn (Z.to_nat i) row ++ v :: skipn (S (Z.to_nat i)) row
  else row.

(* for (i = 0; i < sizeof(working.buffer); i += 2)
     { buffer[i] = 0xFF; buffer[i + 1] = 0x00; } *)
Fixpoint scribble (pairs : nat) : list Z :=
  match pairs with
  | O => []
  | S n => 255 :: 0 :: scribble n
  end.

(** The outputs, the interrupt controller, the clock tree and the timer
    mode registers are outside this model; the busy-wait for the pending
    DMA transfer ends with the stream disabled. *)
Definition configure_timing (timing : Timing) (d : Vga) : Vga :=
  (* Place the horizontal timers in reset, disabling interrupts. *)
  let d := set_tim4 (disable_h_timer (tim4 d)) d in
  let d := set_tim3 (disable_h_timer (tim3 d)) d in
  (* Busy-wait for pending DMA to complete. *)
  let d := set_dma_en false d in
  (* Configure TIM3/4 for horizontal sync generation. *)
  let d := set_tim3 (configure_h_timer timing (tim3 d)) d in
  let d := set_tim4 (configure_h_timer timing (tim4 d)) d in
  (* Adjust tim3's CC2 value back in time. *)
  let d := set_tim3 (write_ccr2 (u32 (ccr2 (tim3 d)) - 7) (tim3 d)) d in
  let d := set_vsync_pin (match vsync_polarity timing with
                          | positive => false
                          | negative => true
                          end) d in
  (* Scribble over working buffer to help catch bugs. *)
  let d := set_working
             (mkWorking (left_pad (working d))
                (scribble (Z.to_nat (max_pixels_per_line / 2)))
                (right_pad (working d))) d in
  (* Blank the final four pixels of the scan buffer. *)
  let d := set_scan_buffer
             (store_pixel (scan_buffer d) (video_pixels timing + 0) 0) d in
  let d := set_scan_buffer
             (store_pixel (scan_buffer d) (video_pixels timing + 1) 0) d in
  let d := set_scan_buffer
             (store_pixel (scan_buffer d) (video_pixels timing + 2) 0) d in
  let d := set_scan_buffer
             (store_pixel (scan_buffer d) (video_pixels timing + 3) 0) d in
  (* Set up global state. *)
  let d := store_current_line 0 d in
  set_current_timing timing d.

Definition configure_band_list (head : Z) (d : Vga) : Vga :=
  let d := set_band_list_head head d in
  store_band_list_taken false d.

Definition in_vblank (d : Vga) : bool :=
  current_line d <? video_start_line (current_timing d).

(** ** [clear_band_list] against the interrupt handlers

    [clear_band_list] runs in the foreground and can be preempted between
    any two of its accesses to the shared variables; a handler runs to
    completion before the foreground resumes (single core, the handlers
    have higher priority).  [ClearPc] is the position of the foreground
    inside [clear_band_list]. *)

Inductive ClearPc :=
| AtSetHead      (* about to run  band_list_head = nullptr   *)
| AtClearTaken   (* about to run  band_list_taken = false    *)
| AtTest         (* about to test !band_list_taken           *)
| AtWfi          (* about to run  wait_for_interrupt()       *)
| Returned.      (* clear_band_list has returned             *)

Record Sys := mkSys {
  pc : ClearPc;
  drv : Vga
}.

(* One access of clear_band_list (with configure_band_list inlined). *)
Definition clear_band_list_step (s : Sys) : Sys :=
  match pc s with
  | AtSetHead => mkSys AtClearTaken (set_band_list_head 0 (drv s))
  | AtClearTaken => mkSys AtTest (store_band_list_taken false (drv s))
  | AtTest => if negb (band_list_taken (drv s))
              then mkSys AtWfi (drv s)
              else mkSys Returned (drv s)
  | AtWfi => mkSys AtTest (wait_for_interrupt (drv s))
  | Returned => s
  end.

Inductive Exception :=
| Tim3Irq
| Tim4Irq (cc2if cc3if : bool)
| PendSvExc.

Inductive Slot :=
| Foreground
| Handler (e : Exception).

Definition run_handler `{Rasterizers} (fuel : nat) (e : Exception) (d : Vga)
  : option Vga :=
  match e with
  | Tim3Irq => Some (etl_stm32f4xx_tim3_handler d)
  | Tim4Irq cc2if cc3if => Some (etl_stm32f4xx_tim4_handler cc2if cc3if d)
  | PendSvExc =>
      (* exception entry clears the pending bit *)
      etl_armv7m_pend_sv_handler fuel (set_pendsv_pending false d)
  end.

Definition sys_step `{Rasterizers} (fuel : nat) (sl : Slot) (s : Sys)
  : option Sys :=
  match sl with
  | Foreground => Some (clear_band_list_step s)
  | Handler e =>
      match run_handler fuel e (drv s) with
      | Some d => Some (mkSys (pc s) d)
      | None => None
      end
  end.

Fixpoint sys_run `{Rasterizers} (fuel : nat) (sched : list Slot) (s : Sys)
  : option Sys :=
  match sched with
  | [] => Some s
  | sl :: sched' =>
      match sys_step fuel sl s with
      | Some s' => sys_run fuel sched' s'
      | None => None
      end
  end.

Definition waiting (p : ClearPc) : bool :=
  match p with
  | AtTest | AtWfi => true
  | _ => false
  end.

(** ** Runs of the vertical state machine *)

(* [n] successive end-of-active-video events. *)
Fixpoint run_lines (n : nat) (d : Vga) : Vga :=
  match n with
  | O => d
  | S k => run_lines k (end_of_active_video d)
  end.

(* The vertical state after each of [n] successive events. *)
Fixpoint states_visited (n : nat) (d : Vga) : list State :=
  match n with
  | O => []
  | S k => state (end_of_active_video d)
           :: states_visited k (end_of_active_video d)
  end.

(** The case list of the vertical state machine as the specification
    gives it, read in order, for the previous line number [L]. *)
Inductive LineCase :=
| FrameStart     (* L == 0 *)
| VsyncEdge      (* L == vsync_start_line or L == vsync_end_line *)
| BeforeVideo    (* L == video_start_line - 1 *)
| VideoStart     (* L == video_start_line *)
| LastLine       (* L == video_end_line - 1 *)
| OtherLine.     (* otherwise *)

(* With the thresholds in the profile's 16-bit arithmetic. *)
Definition line_case (t : Timing) (L : Z) : LineCase :=
  if L =? 0 then FrameStart
  else if L =? vsync_start_line t then VsyncEdge
  else if L =? vsync_end_line t then VsyncEdge
  else if L =? u16 (video_start_line t - 1) then BeforeVideo
  else if L =? video_start_line t then VideoStart
  else if L =? u16 (video_end_line t - 1) then LastLine
  else OtherLine.

(** The same list with the two [- 1] thresholds as plain integer
    differences, the way the specification writes them. *)
Definition line_case_plain (t : Timing) (L : Z) : LineCase :=
  if L =? 0 then FrameStart
  else if L =? vsync_start_line t then VsyncEdge
  else if L =? vsync_end_line t then VsyncEdge
  else if L =? video_start_line t - 1 then BeforeVideo
  else if L =? video_start_line t then VideoStart
  else if L =? video_end_line t - 1 then LastLine
  else OtherLine.

(* The band-list head as the state machine snapshots it. *)
Definition head_snapshot (d : Vga) : Band :=
  if band_list_head d =? 0 then mkBand 0 0 0
  else bands d (band_list_head d).

(* Successive calls of the band scheduler, with the pointers returned. *)
Fixpoint next_rasterizers (fuel : nat) (calls : nat) (d : Vga)
  : option (list Z * Vga) :=
  match calls with
  | O => Some ([], d)
  | S k =>
      match get_next_rasterizer fuel d with
      | None => None
      | Some (r, d') =>
          match next_rasterizers fuel k d' with
          | None => None
          | Some (rs, d'') => Some (r :: rs, d'')
          end
      end
  end.

(* Number of hand-offs (arming writes of the transfer count) in a log. *)
Fixpoint handoffs (l : list Event) : nat :=
  match l with
  | [] => O
  | DmaWriteNdtr _ :: l' => S (handoffs l')
  | _ :: l' => handoffs l'
  end.

(* The events the vertical state machine update can produce. *)
Definition vertical_event (e : Event) : bool :=
  match e with
  | StoreState _ | StoreLine _ | ToggleVsync | StoreBandTaken _ => true
  | _ => false
  end.

Definition rows_ok (d : Vga) : Prop :=
  List.length (scan_buffer d) = Z.to_nat (max_pixels_per_line + 4) /\
  List.length (buffer (working d)) = Z.to_nat max_pixels_per_line.

(** ** Concrete states and profiles *)

Definition zero_timing : Timing :=
  mkTiming 0 0 0 0 0 positive 0 0 0 0 positive.

(* The statics as zero-initialised at start-up. *)
Definition power_on : Vga :=
  mkVga zero_timing 0 blank
    (repeat 0 804)
    (mkWorking (repeat 0 16) (repeat 0 800) (repeat 0 16))
    (mkLineShape 0 0) 0 (mkBand 0 0 0) false
    reset_timer reset_timer 0 false false false
    (fun _ => mkBand 0 0 0) [].

(* The VESA 800x600 60 Hz line and pixel counts, with a lead of 19. *)
Definition timing_800x600 : Timing :=
  mkTiming 1056 128 88 19 800 positive
    1 (1 + 4) (1 + 4 + 23) (1 + 4 + 23 + 600) positive.

(* The profile of the specification's timer scenario. *)
Definition scenario_timing (lead : Z) : Timing :=
  mkTiming 100 10 20 lead 60 positive 1 3 10 20 positive.

(* A small frame: vsync on lines 1..3, video on lines 6..9. *)
Definition small_timing : Timing :=
  mkTiming 100 10 20 5 60 positive 1 3 6 10 positive.

(* A single visible line: video_start_line = video_end_line - 1. *)
Definition one_line_timing : Timing :=
  mkTiming 100 10 20 5 60 positive 1 3 5 6 positive.

(* The spec-valid profile on which the vsync pulse ends on the line before
   the first visible one. *)
Definition no_back_porch_timing : Timing :=
  mkTiming 100 10 20 5 60 positive 1 3 4 10 positive.

(* The band list [(R1,2) -> (R2,1) -> nil], its second band stored at
   address [p2]. *)
Definition two_band_storage (R2 p2 : Z) : Z -> Band :=
  fun p => if p =? p2 then mkBand R2 1 0 else mkBand 0 0 0.

Definition with_bands (m : Z -> Band) (d : Vga) : Vga :=
  mkVga (current_timing d) (current_line d) (state d) (scan_buffer d)
    (working d) (working_buffer_shape d) (band_list_head d)
    (current_band d) (band_list_taken d) (tim3 d) (tim4 d) (dma_ndtr d)
    (dma_en d) (vsync_pin d) (pendsv_pending d) m (log d).

Definition two_band_example : Vga :=
  set_current_band (mkBand 101 2 512)
    (with_bands (two_band_storage 102 512) power_on).

(* A rasterizer table: every rasterizer fills the row with its own
   address (as a pixel value) and asks for a shift of one pixel. *)
Definition solid_fill : Rasterizers :=
  fun r _ w =>
    (mkLineShape 1 800,
     mkWorking (left_pad w) (repeat (r mod 256) 800) (right_pad w)).

(* A schedule in which the foreground is preempted by the events of lines
   0 to 5 of [small_timing]; line 5 is video_start_line - 1. *)
Definition example_schedule : list Slot :=
  [Foreground; Foreground; Foreground;
   Handler (Tim4Irq false true); Foreground;
   Handler PendSvExc; Handler Tim3Irq; Handler (Tim4Irq true false);
   Handler (Tim4Irq false true); Handler (Tim4Irq false true);
   Handler (Tim4Irq false true); Handler (Tim4Irq false true);
   Foreground;
   Handler (Tim4Irq false true);
   Handler PendSvExc; Foreground; Foreground].

Definition example_start : Vga :=
  set_band_list_taken true
    (set_band_list_head 512
       (with_bands (two_band_storage 102 512)
          (configure_timing small_timing power_on))).

Definition example_final : Sys :=
  Eval vm_compute in
    match @sys_run solid_fill 1 example_schedule
            (mkSys AtSetHead example_start) with
    | Some s => s
    | None => mkSys AtSetHead power_on
    end.

(* A displayed state with a scribbled working row of eight valid bytes. *)
Definition handoff_example : Vga :=
  set_state active
    (set_working_buffer_shape (mkLineShape 0 8)
       (configure_timing small_timing power_on)).

(* A rendered state on a visible line with rasterizer 7 scheduled. *)
Definition render_example : Vga :=
  set_state active
    (set_current_line 7
       (set_current_band (mkBand 7 3 0)
          (configure_timing small_timing power_on))).

(* A rendered state on visible line 8 of [small_timing] whose band list
   is used up: the last band has no lines left and no successor. *)
Definition exhausted_example : Vga :=
  set_state active
    (set_current_line 8
       (set_current_band (mkBand 102 0 0)
          (set_working_buffer_shape (mkLineShape 0 8)
             (configure_timing small_timing power_on)))).

(** ** Predicates used in the statements *)

(* The number of bytes the hand-off copies. *)
Definition copied_bytes (d : Vga) : nat :=
  Z.to_nat (4 * (length (working_buffer_shape d) / 4)).

(* A line on which the event leaves the state alone. *)
Definition quiet_line (t : Timing) (L : Z) : Prop :=
  line_case t L = VsyncEdge \/ line_case t L = OtherLine.

(* Profiles on which the line counter wraps: the last line of the frame is
   no other threshold. *)
Definition wraps_at_end (t : Timing) : Prop :=
  Timing_ok t /\
  video_start_line t + 1 < video_end_line t /\
  vsync_start_line t <> video_end_line t - 1 /\
  vsync_end_line t <> video_end_line t - 1.

(* Profiles on which every threshold line is a line of its own. *)
Definition distinct_lines (t : Timing) : Prop :=
  wraps_at_end t /\
  2 <= video_start_line t /\
  vsync_start_line t <> video_start_line t - 1 /\
  vsync_start_line t <> video_start_line t /\
  vsync_end_line t <> video_start_line t - 1 /\
  vsync_end_line t <> video_start_line t.

(* The foreground has not yet seen the flag set. *)
Definition before_taken (s : Sys) : Prop :=
  pc s = AtSetHead \/
  (pc s = AtClearTaken /\ band_list_head (drv s) = 0) \/
  (waiting (pc s) = true /\ band_list_head (drv s) = 0 /\
   band_list_taken (drv s) = false).

(* The flag has been set while the foreground was waiting. *)
Definition after_taken (s : Sys) : Prop :=
  (waiting (pc s) = true \/ pc s = Returned) /\
  band_list_taken (drv s) = true.

(** ** Band lists in the caller's storage *)

(* The bands linked from pointer [p], in order, up to the null pointer. *)
Fixpoint band_chain (mem : Z -> Band) (p : Z) (l : list Band) : Prop :=
  match l with
  | [] => p = 0
  | b :: l' => p <> 0 /\ mem p = b /\ band_chain mem (next b) l'
  end.

(* The rasterizer of each scanline of a list of bands: every band's
   rasterizer repeated [line_count] times. *)
Fixpoint band_lines (l : list Band) : list Z :=
  match l with
  | [] => []
  | b :: l' => repeat (rasterizer b) (Z.to_nat (line_count b)) ++ band_lines l'
  end.

(* Successive handler invocations. *)
Fixpoint run_handlers `{Rasterizers} (fuel : nat) (es : list Exception)
    (d : Vga) : option Vga :=
  match es with
  | [] => Some d
  | e :: es' =>
      match run_handler fuel e d with
      | Some d' => run_handlers fuel es' d'
      | None => None
      end
  end.

(* A band list whose only band has no lines left and links to itself. *)
Definition loop_example : Vga :=
  set_current_band (mkBand 7 0 512)
    (with_bands (fun _ => mkBand 7 0 512) power_on).

(** ** The state that goes with a line number *)

(* Between two events of a frame: on line 0 nothing is being rendered,
   the lines before [video_start_line] are blank, line [video_start_line]
   is the starting line and the lines after it are active. *)
Definition line_state_ok (d : Vga) : Prop :=
  let t := current_timing d in
  let L := current_line d in
  (L = 0 /\ is_rendered_state (state d) = false) \/
  (1 <= L < video_start_line t /\ state d = blank) \/
  (L = video_start_line t /\ state d = starting) \/
  (video_start_line t < L < video_end_line t /\ state d = active).

(* A handler sequence of two lines with both timer events and PendSV. *)
Definition example_handlers : list Exception :=
  [Tim3Irq; Tim4Irq true false; Tim4Irq false true; PendSvExc;
   Tim3Irq; Tim4Irq true true; Tim4Irq false true; PendSvExc;
   Tim4Irq false false].

(** ** Rows and rasterizers of the declared sizes *)

(* Rasterizers that return a working row of the declared size and a line
   length within it. *)
Definition rasterizers_fit (R : Rasterizers) : Prop :=
  forall r line w,
    List.length (buffer w) = Z.to_nat max_pixels_per_line ->
    List.length (buffer (snd (rasterize r line w)))
    = Z.to_nat max_pixels_per_line /\
    0 <= length (fst (rasterize r line w)) <= max_pixels_per_line.

(* Both rows have their declared sizes and the stored line length is
   within the row. *)
Definition rows_fit (d : Vga) : Prop :=
  rows_ok d /\
  0 <= length (working_buffer_shape d) <= max_pixels_per_line.

(* A profile whose second threshold lies less than 7 pixels into the
   line. *)
Definition short_sync_timing : Timing :=
  mkTiming 100 2 8 5 60 positive 1 3 6 10 positive.

(* The number of accesses of clear_band_list in a schedule. *)
Fixpoint foreground_steps (sched : list Slot) : nat :=
  match sched with
  | [] => O
  | Foreground :: sched' => S (foreground_steps sched')
  | Handler _ :: sched' => foreground_steps sched'
  end.

(* The accesses clear_band_list still makes once the flag is set. *)
Definition steps_to_return (p : ClearPc) : nat :=
  match p with
  | AtWfi => 2
  | AtTest => 1
  | _ => 0
  end.

(** ** [sync_to_vblank] and [wait_for_vblank] against the handlers

    [sync_to_vblank] is [while (in_vblank()) wait_for_interrupt();]
    followed by [wait_for_vblank()], which is
    [while (!in_vblank()) wait_for_interrupt();].  [VblankPc] is the
    position of the foreground; [wait_for_vblank] alone starts at
    [AtWaitTest]. *)
Inductive VblankPc :=
| AtSyncTest       (* about to test in_vblank() in sync_to_vblank  *)
| AtSyncWfi        (* about to wait in the first loop              *)
| AtWaitTest       (* about to test !in_vblank() in wait_for_vblank *)
| AtWaitWfi        (* about to wait in wait_for_vblank             *)
| VblankReturned.  (* the call has returned                        *)

Record VblankSys := mkVblankSys {
  vpc : VblankPc;
  vdrv : Vga
}.

Definition sync_to_vblank_step (s : VblankSys) : VblankSys :=
  match vpc s with
  | AtSyncTest => if in_vblank (vdrv s)
                  then mkVblankSys AtSyncWfi (vdrv s)
                  else mkVblankSys AtWaitTest (vdrv s)
  | AtSyncWfi => mkVblankSys AtSyncTest (wait_for_interrupt (vdrv s))
  | AtWaitTest => if negb (in_vblank (vdrv s))
                  then mkVblankSys AtWaitWfi (vdrv s)
                  else mkVblankSys VblankReturned (vdrv s)
  | AtWaitWfi => mkVblankSys AtWaitTest (wait_for_interrupt (vdrv s))
  | VblankReturned => s
  end.

Definition vblank_step `{Rasterizers} (fuel : nat) (sl : Slot)
    (s : VblankSys) : option VblankSys :=
  match sl with
  | Foreground => Some (sync_to_vblank_step s)
  | Handler e =>
      match run_handler fuel e (vdrv s) with
      | Some d => Some (mkVblankSys (vpc s) d)
      | None => None
      end
  end.

Fixpoint vblank_run `{Rasterizers} (fuel : nat) (sched : list Slot)
    (s : VblankSys) : option VblankSys :=
  match sched with
  | [] => Some s
  | sl :: sched' =>
      match vblank_step fuel sl s with
      | Some s' => vblank_run fuel sched' s'
      | None => None
      end
  end.

(* sync_to_vblank has not yet seen the blanking begin. *)
Definition before_vblank (s : VblankSys) : Prop :=
  vpc s = AtSyncTest \/ vpc s = AtSyncWfi \/
  ((vpc s = AtWaitTest \/ vpc s = AtWaitWfi) /\
   in_vblank (vdrv s) = false).

(* A schedule that runs the ten line events of a [small_timing] frame
   between the accesses of sync_to_vblank. *)
Definition vblank_schedule : list Slot :=
  [Foreground; Foreground;
   Handler (Tim4Irq false true); Handler (Tim4Irq false true);
   Handler (Tim4Irq false true); Handler (Tim4Irq false true);
   Handler (Tim4Irq false true); Handler (Tim4Irq false true);
   Foreground; Foreground; Foreground; Handler PendSvExc;
   Handler (Tim4Irq false true); Handler (Tim4Irq false true);
   Handler (Tim4Irq false true); Foreground;
   Handler (Tim4Irq false true);
   Foreground; Foreground].

Definition vblank_final : VblankSys :=
  Eval vm_compute in
    match @vblank_run solid_fill 1 vblank_schedule
            (mkVblankSys AtSyncTest
               (configure_timing small_timing power_on)) with
    | Some s => s
    | None => mkVblankSys AtSyncTest power_on
    end.

(* A state with a stored line length that is not a multiple of four. *)
Definition ragged_example : Vga :=
  set_working_buffer_shape (mkLineShape 0 10)
    (configure_timing small_timing power_on).

(* Handlers between the last accesses of clear_band_list. *)
Definition closing_schedule : list Slot :=
  [Handler PendSvExc; Foreground; Handler (Tim4Irq false true);
   Handler Tim3Irq; Foreground].

(** ** Whole line periods *)

(* Number of transfers started (enabling writes to the DMA stream). *)
Fixpoint transfers (l : list Event) : nat :=
  match l with
  | [] => O
  | DmaEnable :: l' => S (transfers l')
  | _ :: l' => transfers l'
  end.

(* [n] line periods: the end-of-active-video event of a line, the PendSV
   it pends, and the start-of-active-video event of the next line. *)
Fixpoint run_periods `{Rasterizers} (fuel : nat) (n : nat) (d : Vga)
  : option Vga :=
  match n with
  | O => Some d
  | S k =>
      match etl_armv7m_pend_sv_handler fuel (end_of_active_video d) with
      | Some d1 => run_periods fuel k (start_of_active_video d1)
      | None => None
      end
  end.

(** * Properties *)

(** ** Machine integers *)

Lemma u32_small (z : Z) : 0 <= z < 2 ^ 32 -> u32 z = z.
Proof. intros Hz. unfold u32. apply Z.mod_small. exact Hz. Qed.

Lemma u16_small (z : Z) : 0 <= z < 2 ^ 16 -> u16 z = z.
Proof. intros Hz. unfold u16. apply Z.mod_small. exact Hz. Qed.

(* static_cast<unsigned short>(x - 1) is x - 1 for a line number x >= 1 *)
Lemma u16_pred (x : Z) : 1 <= x < 2 ^ 16 -> u16 (x - 1) = x - 1.
Proof. intros Hx. apply u16_small. lia. Qed.

Lemma u16_pred_zero : u16 (0 - 1) = 65535.
Proof. reflexivity. Qed.

(** ** The state encoding *)

Lemma is_rendered_state_bit0 (s : State) :
  is_rendered_state s = Z.testbit (State_code s) 0.
Proof. destruct s; reflexivity. Qed.

Lemma is_displayed_state_bit1 (s : State) :
  is_displayed_state s = Z.testbit (State_code s) 1.
Proof. destruct s; reflexivity. Qed.

Lemma is_rendered_state_iff (s : State) :
  is_rendered_state s = true <-> s = starting \/ s = active.
Proof.
  destruct s; simpl; split; intros H; try discriminate; auto;
    destruct H as [H | H]; discriminate.
Qed.

Lemma is_displayed_state_iff (s : State) :
  is_displayed_state s = true <-> s = active \/ s = finishing.
Proof.
  destruct s; simpl; split; intros H; try discriminate; auto;
    destruct H as [H | H]; discriminate.
Qed.

(** ** One end-of-active-video event *)

Ltac unfold_stores :=
  unfold store_current_line, store_state, store_band_list_taken,
    gpiob_toggle_p7, scb_pend_sv, tim4_write_ccr2, dma_write_ndtr,
    wait_for_interrupt in *.

Ltac split_tests :=
  repeat match goal with
         | |- context [if ?c then _ else _] => destruct c eqn:?
         end.

Lemma end_of_active_video_timing (d : Vga) :
  current_timing (end_of_active_video d) = current_timing d.
Proof.
  unfold end_of_active_video. unfold_stores. cbn.
  split_tests; reflexivity.
Qed.

Lemma end_of_active_video_head (d : Vga) :
  band_list_head (end_of_active_video d) = band_list_head d.
Proof.
  unfold end_of_active_video. unfold_stores. cbn.
  split_tests; reflexivity.
Qed.

Lemma end_of_active_video_bands (d : Vga) :
  bands (end_of_active_video d) = bands d.
Proof.
  unfold end_of_active_video. unfold_stores. cbn.
  split_tests; reflexivity.
Qed.

Lemma end_of_active_video_rows (d : Vga) :
  scan_buffer (end_of_active_video d) = scan_buffer d /\
  working (end_of_active_video d) = working d /\
  working_buffer_shape (end_of_active_video d) = working_buffer_shape d.
Proof.
  unfold end_of_active_video. unfold_stores. cbn.
  split_tests; repeat split; reflexivity.
Qed.

(* On every line below 65535, so on every line of a frame, the 16-bit
   thresholds are the plain differences. *)
Lemma line_case_plain_agrees (t : Timing) (L : Z) :
  Timing_ok t -> 0 <= L < 2 ^ 16 - 1 ->
  line_case t L = line_case_plain t L.
Proof.
  intros Hok HL.
  destruct Hok as (_ & _ & _ & _ & _ & _ & _ & Hstart & Hend).
  unfold is_u16 in *.
  assert (Hs : (L =? u16 (video_start_line t - 1))
               = (L =? video_start_line t - 1)).
  { destruct (Z.eq_dec (video_start_line t) 0) as [Hz | Hnz].
    - rewrite Hz. change (u16 (0 - 1)) with 65535.
      destruct (Z.eqb_spec L 65535), (Z.eqb_spec L (0 - 1));
        try reflexivity; lia.
    - rewrite u16_pred by lia. reflexivity. }
  assert (He : (L =? u16 (video_end_line t - 1))
               = (L =? video_end_line t - 1)).
  { destruct (Z.eq_dec (video_end_line t) 0) as [Hz | Hnz].
    - rewrite Hz. change (u16 (0 - 1)) with 65535.
      destruct (Z.eqb_spec L 65535), (Z.eqb_spec L (0 - 1));
        try reflexivity; lia.
    - rewrite u16_pred by lia. reflexivity. }
  unfold line_case, line_case_plain. rewrite Hs, He. reflexivity.
Qed.

(** C3.  One end-of-visible-line event, for every Timing Profile and
    every previous line number [L], by the case of [L] in the
    specification's list read in order: [L == 0] stores Blank; a vsync
    edge line toggles the vsync output and leaves the state alone;
    [L == video_start_line - 1] stores Starting, snapshots the band-list
    head (the empty band when none is installed) and sets the taken flag;
    [L == video_start_line] stores Active; [L == video_end_line - 1]
    stores Finishing and the counter becomes 0; otherwise nothing but the
    counter changes; the counter becomes [L + 1] in every case but the
    wrap.  The source compares with the [- 1] thresholds narrowed to 16
    bits and increments the counter in 32 bits; for a 16-bit profile and
    a line number below 65535 these are the plain [x - 1] and [L + 1]. *)
Theorem end_of_active_video_cases (d : Vga) :
  let t := current_timing d in
  let L := current_line d in
  let d' := end_of_active_video d in
  match line_case t L with
  | FrameStart =>
      state d' = blank /\ current_line d' = u32 (L + 1) /\
      vsync_pin d' = vsync_pin d /\
      current_band d' = current_band d /\
      band_list_taken d' = band_list_taken d
  | VsyncEdge =>
      state d' = state d /\ current_line d' = u32 (L + 1) /\
      vsync_pin d' = negb (vsync_pin d) /\
      current_band d' = current_band d /\
      band_list_taken d' = band_list_taken d
  | BeforeVideo =>
      state d' = starting /\ current_line d' = u32 (L + 1) /\
      vsync_pin d' = vsync_pin d /\
      current_band d' = head_snapshot d /\
      band_list_taken d' = true
  | VideoStart =>
      state d' = active /\ current_line d' = u32 (L + 1) /\
      vsync_pin d' = vsync_pin d /\
      current_band d' = current_band d /\
      band_list_taken d' = band_list_taken d
  | LastLine =>
      state d' = finishing /\ current_line d' = 0 /\
      vsync_pin d' = vsync_pin d /\
      current_band d' = current_band d /\
      band_list_taken d' = band_list_taken d
  | OtherLine =>
      state d' = state d /\ current_line d' = u32 (L + 1) /\
      vsync_pin d' = vsync_pin d /\
      current_band d' = current_band d /\
      band_list_taken d' = band_list_taken d
  end /\
  (Timing_ok t -> 0 <= L < 2 ^ 16 - 1 ->
   line_case t L = line_case_plain t L /\ u32 (L + 1) = L + 1).
Proof.
  cbv zeta. split.
  - unfold end_of_active_video, line_case, head_snapshot.
    unfold_stores. cbn.
    destruct (current_line d =? 0) eqn:E0; [cbn; auto 6 |].
    destruct (current_line d =? vsync_start_line (current_timing d)) eqn:E1;
      [cbn; auto 6 |].
    destruct (current_line d =? vsync_end_line (current_timing d)) eqn:E2;
      [cbn; auto 6 |].
    cbn.
    destruct (current_line d
              =? u16 (video_start_line (current_timing d) - 1)) eqn:E3.
    { destruct (band_list_head d =? 0); cbn; auto 6. }
    destruct (current_line d =? video_start_line (current_timing d)) eqn:E4;
      [cbn; auto 6 |].
    destruct (current_line d =? u16 (video_end_line (current_timing d) - 1))
      eqn:E5; cbn; auto 6.
  - intros Hok HL. split.
    + apply line_case_plain_agrees; assumption.
    + apply u32_small. lia.
Qed.

Lemma small_timing_ok : Timing_ok small_timing.
Proof. unfold Timing_ok, is_u16. cbn. repeat split; lia. Qed.

(* The event of line 5 = video_start_line - 1 of [small_timing], with a
   band list installed at address 512. *)
Lemma end_of_active_video_cases_witness :
  line_case_plain small_timing 5 = BeforeVideo /\
  state (end_of_active_video (run_lines 5 example_start)) = starting /\
  current_line (end_of_active_video (run_lines 5 example_start)) = 5 + 1 /\
  current_band (end_of_active_video (run_lines 5 example_start))
  = mkBand 102 1 0 /\
  band_list_taken (end_of_active_video (run_lines 5 example_start)) = true.
Proof.
  pose proof (end_of_active_video_cases (run_lines 5 example_start))
    as [Hcase Hplain].
  cbv zeta in Hplain.
  assert (HL : 0 <= current_line (run_lines 5 example_start) < 2 ^ 16 - 1)
    by (vm_compute; split; [discriminate | reflexivity]).
  destruct (Hplain small_timing_ok HL) as [Hagree Hnext].
  split; [reflexivity |].
  change (line_case (current_timing (run_lines 5 example_start))
            (current_line (run_lines 5 example_start)))
    with BeforeVideo in Hcase.
  destruct Hcase as (Hstate & Hline & _ & Hband & Htaken).
  split; [exact Hstate |].
  split; [rewrite Hline; exact Hnext |].
  split; [rewrite Hband; reflexivity | exact Htaken].
Defined.

(** The timer correction and the PendSV request come first in the log of
    an event; what follows belongs to the vertical state machine and ends
    with the store of the new line number. *)
Lemma end_of_active_video_log (d : Vga) :
  let t := current_timing d in
  let v := u32 (sync_pixels t + back_porch_pixels t - video_lead t
                + offset (working_buffer_shape d)) in
  exists events,
    log (end_of_active_video d)
    = log d ++ Tim4WriteCcr2 v :: PendSvSet
        :: events ++ [StoreLine (current_line (end_of_active_video d))]
    /\ forallb vertical_event events = true.
Proof.
  cbv zeta. unfold end_of_active_video. unfold_stores. cbn.
  split_tests; cbn; rewrite <- ?app_assoc; cbn;
    match goal with
    | |- exists events, _ ++ _ :: _ :: ?l = _ /\ _ =>
        exists (removelast l)
    end; cbn; split; reflexivity.
Qed.

Lemma end_of_active_video_tim4 (d : Vga) :
  tim4 (end_of_active_video d)
  = write_ccr2 (sync_pixels (current_timing d)
                + back_porch_pixels (current_timing d)
                - video_lead (current_timing d)
                + offset (working_buffer_shape d)) (tim4 d).
Proof.
  unfold end_of_active_video. unfold_stores. cbn.
  split_tests; reflexivity.
Qed.

(** ** The band scheduler *)

Lemma set_current_band_same (d : Vga) :
  set_current_band (current_band d) d = d.
Proof. destruct d; reflexivity. Qed.

(* The scheduler writes nothing but current_band. *)
Lemma get_next_rasterizer_frame (fuel : nat) :
  forall d r d',
    get_next_rasterizer fuel d = Some (r, d') ->
    d' = set_current_band (current_band d') d.
Proof.
  induction fuel as [| fuel IH]; intros d r d' Hrun; simpl in Hrun.
  - discriminate.
  - destruct (line_count (current_band d) =? 0); simpl in Hrun.
    + destruct (next (current_band d) =? 0); simpl in Hrun.
      * inversion Hrun; subst. symmetry. apply set_current_band_same.
      * apply IH in Hrun. rewrite Hrun at 1. reflexivity.
    + inversion Hrun; subst. reflexivity.
Qed.

(* More fuel never changes a result. *)
Lemma get_next_rasterizer_more_fuel (fuel : nat) :
  forall d res,
    get_next_rasterizer fuel d = Some res ->
    get_next_rasterizer (S fuel) d = Some res.
Proof.
  induction fuel as [| fuel IH]; intros d res Hrun.
  - discriminate.
  - change (get_next_rasterizer (S fuel) d) with
      (if negb (line_count (current_band d) =? 0) then
         Some (rasterizer (current_band d),
               set_current_band
                 (mkBand (rasterizer (current_band d))
                    (line_count (current_band d) - 1)
                    (next (current_band d))) d)
       else if negb (next (current_band d) =? 0) then
         get_next_rasterizer fuel
           (set_current_band (bands d (next (current_band d))) d)
       else Some (0, d)) in Hrun.
    change (get_next_rasterizer (S (S fuel)) d) with
      (if negb (line_count (current_band d) =? 0) then
         Some (rasterizer (current_band d),
               set_current_band
                 (mkBand (rasterizer (current_band d))
                    (line_count (current_band d) - 1)
                    (next (current_band d))) d)
       else if negb (next (current_band d) =? 0) then
         get_next_rasterizer (S fuel)
           (set_current_band (bands d (next (current_band d))) d)
       else Some (0, d)).
    destruct (negb (line_count (current_band d) =? 0)); [exact Hrun |].
    destruct (negb (next (current_band d) =? 0)); [| exact Hrun].
    apply IH. exact Hrun.
Qed.

Lemma get_next_rasterizer_fuel_le (fuel fuel' : nat) (d : Vga) res :
  (fuel <= fuel')%nat ->
  get_next_rasterizer fuel d = Some res ->
  get_next_rasterizer fuel' d = Some res.
Proof.
  intros Hle Hrun. induction Hle as [| m Hle IH].
  - exact Hrun.
  - apply get_next_rasterizer_more_fuel. exact IH.
Qed.

(** C5.  The band scheduler: a positive count is decremented and the
    band's rasterizer returned; on a zero count the scheduler copies
    [*next] over [current_band] and retries, or returns none when there is
    no next band.  With [(R1,2) -> (R2,1) -> nil] installed as
    [current_band], five successive calls return R1, R1, R2, none, none
    (for every bound of at least two nested calls). *)
Theorem get_next_rasterizer_spec :
  (forall fuel d,
      line_count (current_band d) <> 0 ->
      get_next_rasterizer (S fuel) d
      = Some (rasterizer (current_band d),
              set_current_band
                (mkBand (rasterizer (current_band d))
                   (line_count (current_band d) - 1)
                   (next (current_band d))) d)) /\
  (forall fuel d,
      line_count (current_band d) = 0 ->
      next (current_band d) <> 0 ->
      get_next_rasterizer (S fuel) d
      = get_next_rasterizer fuel
          (set_current_band (bands d (next (current_band d))) d)) /\
  (forall fuel d,
      line_count (current_band d) = 0 ->
      next (current_band d) = 0 ->
      get_next_rasterizer (S fuel) d = Some (0, d)) /\
  (forall fuel d R1 R2 p2,
      (2 <= fuel)%nat ->
      p2 <> 0 ->
      current_band d = mkBand R1 2 p2 ->
      bands d p2 = mkBand R2 1 0 ->
      exists d',
        next_rasterizers fuel 5 d = Some ([R1; R1; R2; 0; 0], d') /\
        current_band d' = mkBand R2 0 0).
Proof.
  split; [| split; [| split]].
  - intros fuel d Hcount. simpl.
    apply Z.eqb_neq in Hcount. rewrite Hcount. reflexivity.
  - intros fuel d Hcount Hnext. simpl.
    apply Z.eqb_eq in Hcount. apply Z.eqb_neq in Hnext.
    rewrite Hcount, Hnext. reflexivity.
  - intros fuel d Hcount Hnext. simpl.
    apply Z.eqb_eq in Hcount. apply Z.eqb_eq in Hnext.
    rewrite Hcount, Hnext. reflexivity.
  - intros fuel d R1 R2 p2 Hfuel Hp2 Hband Hstore.
    destruct fuel as [| [| fuel]]; try lia.
    apply Z.eqb_neq in Hp2.
    eexists. split.
    + cbn. rewrite Hband. cbn. rewrite Hp2. cbn. rewrite Hstore. cbn.
      reflexivity.
    + reflexivity.
Qed.

Lemma get_next_rasterizer_witness :
  get_next_rasterizer 1 two_band_example
  = Some (101, set_current_band (mkBand 101 1 512) two_band_example) /\
  get_next_rasterizer 2
    (set_current_band (mkBand 101 0 512) two_band_example)
  = get_next_rasterizer 1
      (set_current_band (mkBand 102 1 0) two_band_example) /\
  get_next_rasterizer 1 power_on = Some (0, power_on) /\
  exists d',
    next_rasterizers 2 5 two_band_example
    = Some ([101; 101; 102; 0; 0], d') /\
    current_band d' = mkBand 102 0 0.
Proof.
  split; [| split; [| split]].
  - apply (proj1 get_next_rasterizer_spec 0%nat two_band_example).
    cbn. lia.
  - apply (proj1 (proj2 get_next_rasterizer_spec) 1%nat
             (set_current_band (mkBand 101 0 512) two_band_example)).
    + reflexivity.
    + cbn. lia.
  - apply (proj1 (proj2 (proj2 get_next_rasterizer_spec)) 0%nat power_on);
      reflexivity.
  - apply (proj2 (proj2 (proj2 get_next_rasterizer_spec))
             2%nat two_band_example 101 102 512).
    + lia.
    + lia.
    + reflexivity.
    + reflexivity.
Defined.

(** ** The hand-off *)

Section ListFacts.
Context {A : Type}.
Implicit Types l : list A.

Lemma firstn_app_exact l1 l2 n :
  List.length l1 = n -> firstn n (l1 ++ l2) = l1.
Proof.
  intros Hlen. rewrite firstn_app, Hlen, Nat.sub_diag, firstn_0.
  rewrite firstn_all2 by lia. apply app_nil_r.
Qed.

Lemma skipn_app_plus l1 l2 n k :
  List.length l1 = n -> skipn (n + k) (l1 ++ l2) = skipn k l2.
Proof.
  intros Hlen. rewrite skipn_app, Hlen.
  rewrite skipn_all2 by lia.
  replace (n + k - n)%nat with k by lia. reflexivity.
Qed.

Lemma skipn_app_exact l1 l2 n :
  List.length l1 = n -> skipn n (l1 ++ l2) = l2.
Proof.
  intros Hlen. rewrite <- (Nat.add_0_r n) at 1.
  rewrite (skipn_app_plus l1 l2 n 0 Hlen). reflexivity.
Qed.

Lemma length_firstn_le l n :
  (n <= List.length l)%nat -> List.length (firstn n l) = n.
Proof. intros Hle. rewrite length_firstn. lia. Qed.
End ListFacts.

Lemma copied_bytes_bound (d : Vga) :
  0 <= length (working_buffer_shape d) <= max_pixels_per_line ->
  (copied_bytes d <= 800)%nat /\
  Z.to_nat (4 * (length (working_buffer_shape d) / 4) + 4)
  = (copied_bytes d + 4)%nat.
Proof.
  intros Hlen. unfold copied_bytes, max_pixels_per_line in *.
  assert (Hdiv : 0 <= length (working_buffer_shape d) / 4 <= 200).
  { split.
    - apply Z.div_pos; lia.
    - apply Z.div_le_upper_bound; lia. }
  split; lia.
Qed.

(** The scan row after a hand-off: the copied bytes of the working row,
    the zero padding word, and the rest of the scan row as it was. *)
Lemma flip_working_buffer_scan (d : Vga) :
  rows_ok d ->
  0 <= length (working_buffer_shape d) <= max_pixels_per_line ->
  scan_buffer (flip_working_buffer d)
  = firstn (copied_bytes d) (buffer (working d))
      ++ [0; 0; 0; 0] ++ skipn (copied_bytes d + 4) (scan_buffer d).
Proof.
  intros [Hscan Hwork] Hlen.
  destruct (copied_bytes_bound d Hlen) as [Hn Hn4].
  unfold flip_working_buffer, copy_words, store_word, dma_write_ndtr.
  cbn [scan_buffer working buffer working_buffer_shape
       set_scan_buffer set_dma_ndtr emit].
  change (word_bytes 0) with [0; 0; 0; 0].
  fold (copied_bytes d). rewrite Hn4.
  rewrite skipn_app_exact; [reflexivity |].
  apply length_firstn_le. rewrite Hscan. cbn. lia.
Qed.

Lemma flip_working_buffer_frame (d : Vga) :
  working (flip_working_buffer d) = working d /\
  working_buffer_shape (flip_working_buffer d) = working_buffer_shape d /\
  state (flip_working_buffer d) = state d /\
  current_line (flip_working_buffer d) = current_line d /\
  current_timing (flip_working_buffer d) = current_timing d /\
  current_band (flip_working_buffer d) = current_band d /\
  bands (flip_working_buffer d) = bands d /\
  band_list_head (flip_working_buffer d) = band_list_head d /\
  band_list_taken (flip_working_buffer d) = band_list_taken d.
Proof. repeat split; reflexivity. Qed.

Lemma flip_working_buffer_log (d : Vga) :
  log (flip_working_buffer d)
  = log d ++ [DmaWriteNdtr (u32 (length (working_buffer_shape d) / 4 + 1))].
Proof. reflexivity. Qed.

Lemma flip_working_buffer_rows_ok (d : Vga) :
  rows_ok d ->
  0 <= length (working_buffer_shape d) <= max_pixels_per_line ->
  rows_ok (flip_working_buffer d).
Proof.
  intros Hrows Hlen. pose proof Hrows as [Hscan Hwork].
  destruct (copied_bytes_bound d Hlen) as [Hn Hn4].
  split.
  - rewrite flip_working_buffer_scan by assumption.
    rewrite !length_app, length_firstn, length_skipn, Hscan, Hwork.
    cbn. lia.
  - exact Hwork.
Qed.

(** C7.  A hand-off with a stored Line Shape of length [len], a multiple
    of the word size within the row capacity: afterwards the first [len]
    bytes of the scan row are the first [len] bytes of the working row,
    the four bytes after them are zero, and the transfer count written to
    the DMA stream is [len / 4 + 1] words. *)
Theorem flip_working_buffer_spec (d : Vga) (len : Z) :
  rows_ok d ->
  length (working_buffer_shape d) = len ->
  len mod 4 = 0 ->
  0 <= len <= max_pixels_per_line ->
  let d' := flip_working_buffer d in
  firstn (Z.to_nat len) (scan_buffer d')
  = firstn (Z.to_nat len) (buffer (working d)) /\
  firstn 4 (skipn (Z.to_nat len) (scan_buffer d')) = [0; 0; 0; 0] /\
  dma_ndtr d' = len / 4 + 1 /\
  log d' = log d ++ [DmaWriteNdtr (len / 4 + 1)] /\
  working d' = working d.
Proof.
  intros Hrows Hshape Hmod Hlen. cbv zeta.
  pose proof Hrows as [Hscan Hwork].
  assert (Hlen' : 0 <= length (working_buffer_shape d)
                  <= max_pixels_per_line) by (rewrite Hshape; exact Hlen).
  destruct (copied_bytes_bound d Hlen') as [Hn Hn4].
  assert (Hbytes : copied_bytes d = Z.to_nat len).
  { unfold copied_bytes. rewrite Hshape. f_equal.
    rewrite (Z.div_mod len 4) at 2 by lia. lia. }
  assert (Hcopy : List.length (firstn (copied_bytes d) (buffer (working d)))
                  = Z.to_nat len).
  { rewrite <- Hbytes. apply length_firstn_le. rewrite Hwork. cbn. lia. }
  assert (Hcount : u32 (len / 4 + 1) = len / 4 + 1).
  { apply u32_small. unfold max_pixels_per_line in Hlen.
    assert (0 <= len / 4 <= 200).
    { split; [apply Z.div_pos | apply Z.div_le_upper_bound]; lia. }
    lia. }
  rewrite flip_working_buffer_scan by assumption.
  repeat split.
  - rewrite firstn_app_exact by exact Hcopy. rewrite Hbytes. reflexivity.
  - rewrite skipn_app_exact by exact Hcopy. reflexivity.
  - unfold flip_working_buffer, dma_write_ndtr. cbn.
    rewrite Hshape. exact Hcount.
  - rewrite flip_working_buffer_log, Hshape, Hcount. reflexivity.
Qed.

Lemma handoff_example_rows_ok : rows_ok handoff_example.
Proof. split; reflexivity. Qed.

Lemma flip_working_buffer_spec_witness :
  firstn (Z.to_nat 8) (scan_buffer (flip_working_buffer handoff_example))
  = [255; 0; 255; 0; 255; 0; 255; 0] /\
  firstn 4 (skipn (Z.to_nat 8)
              (scan_buffer (flip_working_buffer handoff_example)))
  = [0; 0; 0; 0] /\
  dma_ndtr (flip_working_buffer handoff_example) = 8 / 4 + 1.
Proof.
  assert (Hmod : 8 mod 4 = 0) by reflexivity.
  assert (Hlen : 0 <= 8 <= max_pixels_per_line)
    by (unfold max_pixels_per_line; lia).
  pose proof (flip_working_buffer_spec handoff_example 8
                handoff_example_rows_ok eq_refl Hmod Hlen) as Hflip.
  cbv zeta in Hflip.
  destruct Hflip as (Hcopy & Hpad & Hcount & _).
  split; [exact Hcopy | split; [exact Hpad | exact Hcount]].
Defined.

(* A second hand-off from an unchanged working row rewrites the same
   scan row. *)
Lemma flip_working_buffer_again (d : Vga) :
  rows_ok d ->
  0 <= length (working_buffer_shape d) <= max_pixels_per_line ->
  scan_buffer (flip_working_buffer (flip_working_buffer d))
  = scan_buffer (flip_working_buffer d).
Proof.
  intros Hrows Hlen. pose proof Hrows as [Hscan Hwork].
  destruct (copied_bytes_bound d Hlen) as [Hn Hn4].
  rewrite (flip_working_buffer_scan (flip_working_buffer d)).
  - change (copied_bytes (flip_working_buffer d)) with (copied_bytes d).
    change (buffer (working (flip_working_buffer d)))
      with (buffer (working d)).
    rewrite flip_working_buffer_scan by assumption.
    assert (Hcopy : List.length (firstn (copied_bytes d)
                                   (buffer (working d))) = copied_bytes d).
    { apply length_firstn_le. rewrite Hwork. cbn. lia. }
    rewrite (skipn_app_plus _ _ (copied_bytes d) 4 Hcopy).
    reflexivity.
  - apply flip_working_buffer_rows_ok; assumption.
  - exact Hlen.
Qed.

(** ** The deferred render task *)

Lemma handoffs_app (l1 l2 : list Event) :
  handoffs (l1 ++ l2) = (handoffs l1 + handoffs l2)%nat.
Proof.
  induction l1 as [| e l1 IH]; [reflexivity |].
  destruct e; simpl; rewrite IH; reflexivity.
Qed.

Lemma pend_sv_flip_handoffs (d : Vga) :
  handoffs (log (pend_sv_flip d))
  = (handoffs (log d)
     + (if is_rendered_state (state d) then 1 else 0))%nat.
Proof.
  unfold pend_sv_flip. destruct (is_rendered_state (state d)).
  - rewrite flip_working_buffer_log, handoffs_app. reflexivity.
  - lia.
Qed.

(* The render step writes current_band, working and the stored shape. *)
Lemma pend_sv_render_frame `{Rasterizers} (fuel : nat) (d d' : Vga) :
  pend_sv_render fuel d = Some d' ->
  log d' = log d /\ scan_buffer d' = scan_buffer d /\
  dma_ndtr d' = dma_ndtr d /\ state d' = state d /\
  band_list_head d' = band_list_head d /\
  band_list_taken d' = band_list_taken d.
Proof.
  unfold pend_sv_render. intros Hrun.
  destruct (is_rendered_state (state d));
    [| inversion Hrun; subst; auto 7].
  destruct ((video_start_line (current_timing d) <=? current_line d)
            && (current_line d <=? video_end_line (current_timing d)));
    [| inversion Hrun; subst; auto 7].
  destruct (get_next_rasterizer fuel d) as [[r dm] |] eqn:Hnext;
    [| discriminate].
  apply get_next_rasterizer_frame in Hnext.
  destruct (negb (r =? 0)).
  - destruct (rasterize r _ (working dm)) as [shape w].
    inversion Hrun; subst. rewrite Hnext. cbn. auto 7.
  - inversion Hrun; subst. rewrite Hnext. cbn. auto 7.
Qed.

Lemma pend_sv_handler_handoffs `{Rasterizers} (fuel : nat) (d d' : Vga) :
  etl_armv7m_pend_sv_handler fuel d = Some d' ->
  handoffs (log d')
  = (handoffs (log d)
     + (if is_rendered_state (state d) then 1 else 0))%nat.
Proof.
  unfold etl_armv7m_pend_sv_handler, vga_hblank_interrupt,
    default_hblank_interrupt.
  intros Hrun. apply pend_sv_render_frame in Hrun.
  destruct Hrun as [Hlog _]. rewrite Hlog. apply pend_sv_flip_handoffs.
Qed.

(** C1 (the source departs from it).  The hand-off block of the PendSV
    handler is guarded by [is_rendered_state], bit 0 of the state, not by
    [is_displayed_state]: the handler hands off exactly in the rendered
    states.  In Starting, which is not a displayed state, it copies the
    row and arms the transfer; in Finishing, which is a displayed state,
    it does neither. *)
Theorem pend_sv_handoff_follows_rendered_bit :
  (forall d : Vga,
      log (pend_sv_flip d)
      = log d ++
          (if is_rendered_state (state d)
           then [DmaWriteNdtr (u32 (length (working_buffer_shape d) / 4 + 1))]
           else [])) /\
  (forall R : Rasterizers,
      is_displayed_state starting = false /\
      option_map (fun d => handoffs (log d))
        (@etl_armv7m_pend_sv_handler R 1 (set_state starting power_on))
      = Some 1%nat) /\
  (forall R : Rasterizers,
      is_displayed_state finishing = true /\
      option_map (fun d => handoffs (log d))
        (@etl_armv7m_pend_sv_handler R 1 (set_state finishing power_on))
      = Some 0%nat).
Proof.
  split; [| split].
  - intros d. unfold pend_sv_flip.
    destruct (is_rendered_state (state d)).
    + apply flip_working_buffer_log.
    + symmetry. apply app_nil_r.
  - intros R. split; reflexivity.
  - intros R. split; reflexivity.
Qed.

Lemma pend_sv_render_none `{Rasterizers} (fuel : nat) (d dm : Vga) :
  get_next_rasterizer fuel d = Some (0, dm) ->
  exists d',
    pend_sv_render fuel d = Some d' /\
    d' = set_current_band (current_band d') d.
Proof.
  intros Hnext. unfold pend_sv_render.
  destruct (is_rendered_state (state d));
    [| exists d; split; [reflexivity | symmetry; apply set_current_band_same]].
  destruct ((video_start_line (current_timing d) <=? current_line d)
            && (current_line d <=? video_end_line (current_timing d)));
    [| exists d; split; [reflexivity | symmetry; apply set_current_band_same]].
  rewrite Hnext. cbn. exists dm. split; [reflexivity |].
  apply get_next_rasterizer_frame in Hnext. exact Hnext.
Qed.

(** C9.  An invocation of the deferred render task in which the band
    scheduler returns none completes and leaves the working row and the
    stored Line Shape as they were; the next hand-off then puts out the
    same row, with the same transfer count, as a hand-off from the state
    before the invocation. *)
Theorem pend_sv_none_keeps_working_row `{Rasterizers}
    (fuel : nat) (d dm : Vga) :
  get_next_rasterizer fuel (vga_hblank_interrupt (pend_sv_flip d))
  = Some (0, dm) ->
  exists d',
    etl_armv7m_pend_sv_handler fuel d = Some d' /\
    working d' = working d /\
    working_buffer_shape d' = working_buffer_shape d /\
    (rows_ok d ->
     0 <= length (working_buffer_shape d) <= max_pixels_per_line ->
     scan_buffer (flip_working_buffer d')
     = scan_buffer (flip_working_buffer d) /\
     dma_ndtr (flip_working_buffer d') = dma_ndtr (flip_working_buffer d)).
Proof.
  intros Hnext.
  destruct (pend_sv_render_none fuel _ dm Hnext) as [d' [Hrun Hframe]].
  exists d'. unfold etl_armv7m_pend_sv_handler.
  split; [exact Hrun |].
  unfold vga_hblank_interrupt, default_hblank_interrupt in Hframe.
  unfold pend_sv_flip in Hframe.
  destruct (is_rendered_state (state d)) eqn:Hstate.
  - repeat split.
    + rewrite Hframe. reflexivity.
    + rewrite Hframe. reflexivity.
    + rewrite Hframe.
      change (scan_buffer
                (flip_working_buffer
                   (set_current_band (current_band d')
                      (flip_working_buffer d))))
        with (scan_buffer (flip_working_buffer (flip_working_buffer d))).
      apply flip_working_buffer_again; assumption.
    + rewrite Hframe. reflexivity.
  - repeat split; rewrite Hframe; reflexivity.
Qed.

Lemma exhausted_example_rows_ok : rows_ok exhausted_example.
Proof. split; reflexivity. Qed.

(* The handler on a visible line in the Active state: the render block
   is entered, the scheduler is consulted and returns the null pointer. *)
Lemma pend_sv_none_keeps_working_row_witness :
  is_rendered_state (state exhausted_example) = true /\
  video_start_line (current_timing exhausted_example)
  <= current_line exhausted_example
  <= video_end_line (current_timing exhausted_example) /\
  get_next_rasterizer 1
    (vga_hblank_interrupt (pend_sv_flip exhausted_example))
  = Some (0, flip_working_buffer exhausted_example) /\
  exists d',
    @etl_armv7m_pend_sv_handler solid_fill 1 exhausted_example = Some d' /\
    working d' = working exhausted_example /\
    working_buffer_shape d' = working_buffer_shape exhausted_example /\
    scan_buffer (flip_working_buffer d')
    = scan_buffer (flip_working_buffer exhausted_example) /\
    dma_ndtr (flip_working_buffer d')
    = dma_ndtr (flip_working_buffer exhausted_example).
Proof.
  assert (Hnone : get_next_rasterizer 1
                    (vga_hblank_interrupt (pend_sv_flip exhausted_example))
                  = Some (0, flip_working_buffer exhausted_example))
    by reflexivity.
  split; [reflexivity |].
  split; [vm_compute; split; discriminate |].
  split; [exact Hnone |].
  destruct (@pend_sv_none_keeps_working_row solid_fill 1%nat
              exhausted_example (flip_working_buffer exhausted_example)
              Hnone)
    as (d' & Hrun & Hrow & Hshape & Hnext).
  exists d'.
  split; [exact Hrun |]. split; [exact Hrow |]. split; [exact Hshape |].
  apply Hnext.
  - exact exhausted_example_rows_ok.
  - cbn. unfold max_pixels_per_line. lia.
Defined.

(** ** Runs of the vertical state machine *)

Lemma end_of_active_video_state (d : Vga) :
  state (end_of_active_video d)
  = match line_case (current_timing d) (current_line d) with
    | FrameStart => blank
    | BeforeVideo => starting
    | VideoStart => active
    | LastLine => finishing
    | VsyncEdge | OtherLine => state d
    end.
Proof.
  unfold end_of_active_video, line_case. unfold_stores. cbn.
  destruct (current_line d =? 0); [reflexivity |].
  destruct (current_line d =? vsync_start_line (current_timing d));
    [reflexivity |].
  destruct (current_line d =? vsync_end_line (current_timing d));
    [reflexivity |]. cbn.
  destruct (current_line d =? u16 (video_start_line (current_timing d) - 1)).
  { destruct (band_list_head d =? 0); reflexivity. }
  destruct (current_line d =? video_start_line (current_timing d));
    [reflexivity |].
  destruct (current_line d =? u16 (video_end_line (current_timing d) - 1));
    reflexivity.
Qed.

Lemma end_of_active_video_line (d : Vga) :
  current_line (end_of_active_video d)
  = match line_case (current_timing d) (current_line d) with
    | LastLine => 0
    | _ => u32 (current_line d + 1)
    end.
Proof.
  unfold end_of_active_video, line_case. unfold_stores. cbn.
  destruct (current_line d =? 0); [reflexivity |].
  destruct (current_line d =? vsync_start_line (current_timing d));
    [reflexivity |].
  destruct (current_line d =? vsync_end_line (current_timing d));
    [reflexivity |]. cbn.
  destruct (current_line d =? u16 (video_start_line (current_timing d) - 1)).
  { destruct (band_list_head d =? 0); reflexivity. }
  destruct (current_line d =? video_start_line (current_timing d));
    [reflexivity |].
  destruct (current_line d =? u16 (video_end_line (current_timing d) - 1));
    reflexivity.
Qed.

Lemma run_lines_add (a b : nat) (d : Vga) :
  run_lines (a + b) d = run_lines b (run_lines a d).
Proof.
  revert d. induction a as [| a IH]; intros d; [reflexivity |].
  simpl. apply IH.
Qed.

Lemma states_visited_add (a b : nat) (d : Vga) :
  states_visited (a + b) d
  = states_visited a d ++ states_visited b (run_lines a d).
Proof.
  revert d. induction a as [| a IH]; intros d; [reflexivity |].
  simpl. rewrite IH. reflexivity.
Qed.

Lemma run_lines_timing (n : nat) (d : Vga) :
  current_timing (run_lines n d) = current_timing d.
Proof.
  revert d. induction n as [| n IH]; intros d; [reflexivity |].
  simpl. rewrite IH. apply end_of_active_video_timing.
Qed.

Lemma quiet_event (d : Vga) :
  quiet_line (current_timing d) (current_line d) ->
  state (end_of_active_video d) = state d /\
  current_line (end_of_active_video d) = u32 (current_line d + 1).
Proof.
  intros Hquiet.
  rewrite end_of_active_video_state, end_of_active_video_line.
  destruct Hquiet as [Hcase | Hcase]; rewrite Hcase; split; reflexivity.
Qed.

(* [k] quiet lines in a row keep the state and advance the counter. *)
Lemma quiet_run (k : nat) :
  forall d,
    0 <= current_line d ->
    current_line d + Z.of_nat k < 2 ^ 32 ->
    (forall L, current_line d <= L < current_line d + Z.of_nat k ->
               quiet_line (current_timing d) L) ->
    states_visited k d = repeat (state d) k /\
    state (run_lines k d) = state d /\
    current_line (run_lines k d) = current_line d + Z.of_nat k.
Proof.
  induction k as [| k IH]; intros d Hpos Hbound Hquiet.
  - simpl. repeat split. lia.
  - destruct (quiet_event d) as [Hstate Hline].
    { apply Hquiet. lia. }
    rewrite u32_small in Hline by lia.
    destruct (IH (end_of_active_video d)) as [Hvis [Hst Hln]].
    + rewrite Hline. lia.
    + rewrite Hline. lia.
    + intros L HL. rewrite end_of_active_video_timing.
      apply Hquiet. rewrite Hline in HL. lia.
    + simpl. rewrite Hvis, Hst, Hln, Hstate, Hline.
      repeat split. lia.
Qed.

Lemma line_case_last (t : Timing) :
  wraps_at_end t -> line_case t (video_end_line t - 1) = LastLine.
Proof.
  intros [Hok [Hlt [Hvs Hve]]].
  destruct Hok as (_ & _ & _ & _ & _ & Hr1 & Hr2 & Hr3 & Hr4).
  unfold is_u16 in *.
  assert (Hend : u16 (video_end_line t - 1) = video_end_line t - 1)
    by (apply u16_pred; lia).
  assert (Hstart : u16 (video_start_line t - 1) <> video_end_line t - 1).
  { destruct (Z.eq_dec (video_start_line t) 0) as [Hz | Hnz].
    - rewrite Hz. change (u16 (0 - 1)) with 65535. lia.
    - rewrite u16_pred by lia. lia. }
  unfold line_case. rewrite Hend.
  repeat match goal with
         | |- context [?a =? ?b] => destruct (Z.eqb_spec a b)
         end; try reflexivity; try lia; congruence.
Qed.

Lemma line_case_not_last (t : Timing) (L : Z) :
  wraps_at_end t -> 0 <= L < video_end_line t - 1 ->
  line_case t L <> LastLine.
Proof.
  intros [Hok [Hlt [Hvs Hve]]] HL.
  destruct Hok as (_ & _ & _ & _ & _ & Hr1 & Hr2 & Hr3 & Hr4).
  unfold is_u16 in *.
  assert (Hend : u16 (video_end_line t - 1) = video_end_line t - 1)
    by (apply u16_pred; lia).
  unfold line_case. rewrite Hend.
  repeat match goal with
         | |- context [?a =? ?b] => destruct (Z.eqb_spec a b)
         end; try discriminate; lia.
Qed.

Section DistinctLines.
Variable t : Timing.
Hypothesis Hdistinct : distinct_lines t.

Let vsl := video_start_line t.
Let vel := video_end_line t.

Lemma distinct_lines_bounds :
  2 <= vsl /\ vsl + 1 < vel /\ vel < 2 ^ 16 /\
  u16 (vsl - 1) = vsl - 1 /\ u16 (vel - 1) = vel - 1.
Proof.
  destruct Hdistinct as [[Hok [Hlt _]] [H2 _]].
  destruct Hok as (_ & _ & _ & _ & _ & _ & _ & Hr3 & Hr4).
  unfold is_u16 in *. subst vsl vel.
  repeat split; try lia; apply u16_pred; lia.
Qed.

Lemma line_case_before_video : line_case t (vsl - 1) = BeforeVideo.
Proof.
  destruct distinct_lines_bounds as (H2 & Hlt & Hmax & Hs & He).
  destruct Hdistinct as [[_ [_ [Hvs1 Hve1]]] [_ [Hvs2 [Hvs3 [Hve2 Hve3]]]]].
  unfold line_case. fold vsl vel. rewrite Hs.
  repeat match goal with
         | |- context [?a =? ?b] => destruct (Z.eqb_spec a b)
         end; try reflexivity; subst vsl vel; lia.
Qed.

Lemma line_case_video_start : line_case t vsl = VideoStart.
Proof.
  destruct distinct_lines_bounds as (H2 & Hlt & Hmax & Hs & He).
  destruct Hdistinct as [[_ [_ [Hvs1 Hve1]]] [_ [Hvs2 [Hvs3 [Hve2 Hve3]]]]].
  unfold line_case. fold vsl vel. rewrite Hs.
  repeat match goal with
         | |- context [?a =? ?b] => destruct (Z.eqb_spec a b)
         end; try reflexivity; subst vsl vel; lia.
Qed.

Lemma quiet_before_video (L : Z) : 1 <= L < vsl - 1 -> quiet_line t L.
Proof.
  intros HL.
  destruct distinct_lines_bounds as (H2 & Hlt & Hmax & Hs & He).
  unfold quiet_line, line_case. fold vsl vel. rewrite Hs, He.
  repeat match goal with
         | |- context [?a =? ?b] => destruct (Z.eqb_spec a b)
         end; auto; lia.
Qed.

Lemma quiet_during_video (L : Z) : vsl < L < vel - 1 -> quiet_line t L.
Proof.
  intros HL.
  destruct distinct_lines_bounds as (H2 & Hlt & Hmax & Hs & He).
  unfold quiet_line, line_case. fold vsl vel. rewrite Hs, He.
  repeat match goal with
         | |- context [?a =? ?b] => destruct (Z.eqb_spec a b)
         end; auto; lia.
Qed.
End DistinctLines.

(** One frame of a profile with distinct threshold lines, from line 0. *)
Lemma frame_run (d : Vga) :
  distinct_lines (current_timing d) ->
  current_line d = 0 ->
  let vsl := video_start_line (current_timing d) in
  let vel := video_end_line (current_timing d) in
  states_visited (Z.to_nat vel) d
  = repeat blank (Z.to_nat (vsl - 1)) ++ starting
      :: repeat active (Z.to_nat (vel - vsl - 1)) ++ [finishing] /\
  state (run_lines (Z.to_nat vel) d) = finishing /\
  current_line (run_lines (Z.to_nat vel) d) = 0.
Proof.
  intros Hdistinct Hzero. cbv zeta.
  set (t := current_timing d) in *.
  destruct (distinct_lines_bounds t Hdistinct) as (H2 & Hlt & Hmax & _ & _).
  set (vsl := video_start_line t) in *.
  set (vel := video_end_line t) in *.
  (* the event of line 0 *)
  set (d1 := end_of_active_video d).
  assert (Ht1 : current_timing d1 = t) by apply end_of_active_video_timing.
  assert (Hs1 : state d1 = blank).
  { unfold d1. rewrite end_of_active_video_state. fold t.
    rewrite Hzero. reflexivity. }
  assert (Hl1 : current_line d1 = 1).
  { unfold d1. rewrite end_of_active_video_line. fold t.
    rewrite Hzero. reflexivity. }
  (* the blank lines up to video_start_line - 2 *)
  set (n1 := Z.to_nat (vsl - 2)).
  destruct (quiet_run n1 d1) as (Hv2 & Hs2 & Hl2).
  { lia. } { lia. }
  { intros L HL. rewrite Ht1. apply quiet_before_video; [assumption |].
    fold vsl. lia. }
  set (d2 := run_lines n1 d1) in *.
  assert (Ht2 : current_timing d2 = t).
  { unfold d2. rewrite run_lines_timing. exact Ht1. }
  (* the event of line video_start_line - 1 *)
  set (d3 := end_of_active_video d2).
  assert (Ht3 : current_timing d3 = t).
  { unfold d3. rewrite end_of_active_video_timing. exact Ht2. }
  assert (Hcase3 : line_case t (current_line d2) = BeforeVideo).
  { rewrite Hl2, Hl1. replace (1 + Z.of_nat n1) with (vsl - 1) by lia.
    apply line_case_before_video. assumption. }
  assert (Hs3 : state d3 = starting).
  { unfold d3. rewrite end_of_active_video_state, Ht2, Hcase3.
    reflexivity. }
  assert (Hl3 : current_line d3 = vsl).
  { unfold d3. rewrite end_of_active_video_line, Ht2, Hcase3.
    rewrite u32_small by lia. lia. }
  (* the event of line video_start_line *)
  set (d4 := end_of_active_video d3).
  assert (Ht4 : current_timing d4 = t).
  { unfold d4. rewrite end_of_active_video_timing. exact Ht3. }
  assert (Hcase4 : line_case t (current_line d3) = VideoStart).
  { rewrite Hl3. apply line_case_video_start. assumption. }
  assert (Hs4 : state d4 = active).
  { unfold d4. rewrite end_of_active_video_state, Ht3, Hcase4.
    reflexivity. }
  assert (Hl4 : current_line d4 = vsl + 1).
  { unfold d4. rewrite end_of_active_video_line, Ht3, Hcase4.
    rewrite u32_small by lia. lia. }
  (* the visible lines up to video_end_line - 2 *)
  set (n2 := Z.to_nat (vel - vsl - 2)).
  destruct (quiet_run n2 d4) as (Hv5 & Hs5 & Hl5).
  { lia. } { lia. }
  { intros L HL. rewrite Ht4. apply quiet_during_video; [assumption |].
    fold vsl vel. lia. }
  set (d5 := run_lines n2 d4) in *.
  assert (Ht5 : current_timing d5 = t).
  { unfold d5. rewrite run_lines_timing. exact Ht4. }
  (* the event of line video_end_line - 1 *)
  set (d6 := end_of_active_video d5).
  assert (Hcase6 : line_case t (current_line d5) = LastLine).
  { rewrite Hl5, Hl4. replace (vsl + 1 + Z.of_nat n2) with (vel - 1) by lia.
    apply line_case_last. apply Hdistinct. }
  assert (Hs6 : state d6 = finishing).
  { unfold d6. rewrite end_of_active_video_state, Ht5, Hcase6.
    reflexivity. }
  assert (Hl6 : current_line d6 = 0).
  { unfold d6. rewrite end_of_active_video_line, Ht5, Hcase6.
    reflexivity. }
  (* put the six pieces together *)
  replace (Z.to_nat vel)
    with (1 + (n1 + (1 + (1 + (n2 + 1)))))%nat by lia.
  rewrite !run_lines_add.
  rewrite !states_visited_add.
  change (run_lines 1 d) with d1.
  change (states_visited 1 d) with [state d1].
  fold d2.
  change (run_lines 1 d2) with d3.
  change (states_visited 1 d2) with [state d3].
  change (run_lines 1 d3) with d4.
  change (states_visited 1 d3) with [state d4].
  fold d5.
  change (run_lines 1 d5) with d6.
  change (states_visited 1 d5) with [state d6].
  rewrite Hv2, Hv5, Hs1, Hs3, Hs4, Hs6.
  repeat split; try assumption.
  replace (Z.to_nat (vsl - 1)) with (S n1) by lia.
  replace (Z.to_nat (vel - vsl - 1)) with (S n2) by lia.
  reflexivity.
Qed.

(** C4, as the source has it.  For a profile whose threshold lines are
    pairwise distinct ([distinct_lines]), one cycle of the line counter is
    [video_end_line] events (the source has no separate total line count).
    Started on line 0 the state after each event is Blank for the first
    [video_start_line - 1] events, Starting for one, Active for
    [video_end_line - video_start_line - 1] events and Finishing for the
    last; the counter is then back on line 0 and the next event re-enters
    Blank.  For every state, [is_rendered_state] is bit 0 of its code
    (true exactly for Starting and Active) and [is_displayed_state] is
    bit 1 (true exactly for Active and Finishing). *)
Theorem vertical_state_cycle (d : Vga) :
  distinct_lines (current_timing d) ->
  current_line d = 0 ->
  let vsl := video_start_line (current_timing d) in
  let vel := video_end_line (current_timing d) in
  states_visited (Z.to_nat vel) d
  = repeat blank (Z.to_nat (vsl - 1)) ++ starting
      :: repeat active (Z.to_nat (vel - vsl - 1)) ++ [finishing] /\
  current_line (run_lines (Z.to_nat vel) d) = 0 /\
  state (end_of_active_video (run_lines (Z.to_nat vel) d)) = blank /\
  (forall s : State,
      is_rendered_state s = Z.testbit (State_code s) 0 /\
      (is_rendered_state s = true <-> s = starting \/ s = active) /\
      is_displayed_state s = Z.testbit (State_code s) 1 /\
      (is_displayed_state s = true <-> s = active \/ s = finishing)).
Proof.
  intros Hdistinct Hzero. cbv zeta.
  destruct (frame_run d Hdistinct Hzero) as (Hvisited & Hstate & Hline).
  repeat split; try assumption.
  - rewrite end_of_active_video_state, run_lines_timing, Hline.
    reflexivity.
  - apply is_rendered_state_bit0.
  - apply is_rendered_state_iff.
  - apply is_rendered_state_iff.
  - apply is_displayed_state_bit1.
  - apply is_displayed_state_iff.
  - apply is_displayed_state_iff.
Qed.

Lemma small_timing_distinct : distinct_lines small_timing.
Proof.
  unfold distinct_lines, wraps_at_end, Timing_ok, is_u16. cbn.
  repeat split; lia.
Qed.

Lemma vertical_state_cycle_witness :
  states_visited 10 (configure_timing small_timing power_on)
  = [blank; blank; blank; blank; blank; starting;
     active; active; active; finishing] /\
  current_line (run_lines 10 (configure_timing small_timing power_on)) = 0.
Proof.
  pose proof (vertical_state_cycle
                (configure_timing small_timing power_on)
                small_timing_distinct eq_refl) as Hcycle.
  cbv zeta in Hcycle.
  destruct Hcycle as (Hvisited & Hline & _).
  split; [exact Hvisited | exact Hline].
Defined.

Lemma timing_800x600_distinct : distinct_lines timing_800x600.
Proof.
  unfold distinct_lines, wraps_at_end, Timing_ok, is_u16. cbn.
  repeat split; lia.
Qed.

(* One frame of the 800x600 mode: 27 blank line events, one starting,
   599 active, one finishing. *)
Example timing_800x600_frame :
  states_visited 628 (configure_timing timing_800x600 power_on)
  = repeat blank 27 ++ starting :: repeat active 599 ++ [finishing].
Proof.
  exact (proj1 (frame_run (configure_timing timing_800x600 power_on)
                  timing_800x600_distinct eq_refl)).
Qed.

(** C4 as stated fails on a profile that the specification's invariant
    admits: with the vsync pulse ending on line [video_start_line - 1]
    the event of that line toggles vsync, and Starting is never entered
    (nor is the band list taken). *)
Lemma vertical_state_cycle_skips_starting :
  video_start_line no_back_porch_timing
  < video_end_line no_back_porch_timing /\
  states_visited 11 (configure_timing no_back_porch_timing power_on)
  = [blank; blank; blank; blank; active; active; active; active; active;
     finishing; blank].
Proof. split; reflexivity. Qed.

Lemma line_in_frame_step (d : Vga) :
  wraps_at_end (current_timing d) ->
  0 <= current_line d < video_end_line (current_timing d) ->
  0 <= current_line (end_of_active_video d)
  < video_end_line (current_timing d).
Proof.
  intros Hwrap Hline. rewrite end_of_active_video_line.
  pose proof Hwrap as [Hok [Hlt _]].
  destruct Hok as (_ & _ & _ & _ & _ & _ & _ & _ & Hr4).
  unfold is_u16 in Hr4.
  destruct (Z.eq_dec (current_line d)
              (video_end_line (current_timing d) - 1)) as [Hlast | Hnot].
  - rewrite Hlast, line_case_last by assumption. lia.
  - assert (Hcase : line_case (current_timing d) (current_line d)
                    <> LastLine)
      by (apply line_case_not_last; [assumption | lia]).
    assert (Hnext : u32 (current_line d + 1) = current_line d + 1)
      by (apply u32_small; lia).
    destruct (line_case (current_timing d) (current_line d));
      try congruence; rewrite Hnext; lia.
Qed.

Lemma line_in_frame_run (n : nat) :
  forall d,
    wraps_at_end (current_timing d) ->
    0 <= current_line d < video_end_line (current_timing d) ->
    0 <= current_line (run_lines n d) < video_end_line (current_timing d).
Proof.
  induction n as [| n IH]; intros d Hwrap Hline; [exact Hline |].
  simpl. rewrite <- (end_of_active_video_timing d).
  apply IH.
  - rewrite end_of_active_video_timing. exact Hwrap.
  - rewrite end_of_active_video_timing.
    apply line_in_frame_step; assumption.
Qed.

Lemma configure_timing_globals (t : Timing) (d : Vga) :
  current_line (configure_timing t d) = 0 /\
  current_timing (configure_timing t d) = t.
Proof. split; reflexivity. Qed.

(** C10, as the source has it.  For every profile with
    [video_start_line + 1 < video_end_line] and no vsync edge on line
    [video_end_line - 1] ([wraps_at_end]): [configure_timing] sets the
    counter to 0, every number of end-of-visible-line events after it
    leaves the counter within [0, video_end_line), and the event of line
    [video_end_line - 1] sets it to 0. *)
Theorem current_line_stays_in_frame (t : Timing) (d : Vga) (n : nat) :
  wraps_at_end t ->
  current_line (configure_timing t d) = 0 /\
  0 <= current_line (run_lines n (configure_timing t d))
  < video_end_line t /\
  (forall d1,
      current_timing d1 = t ->
      current_line d1 = video_end_line t - 1 ->
      current_line (end_of_active_video d1) = 0).
Proof.
  intros Hwrap.
  destruct (configure_timing_globals t d) as [Hline Htiming].
  split; [exact Hline |]. split.
  - rewrite <- Htiming at 3. apply line_in_frame_run.
    + rewrite Htiming. exact Hwrap.
    + rewrite Hline, Htiming.
      destruct Hwrap as [Hok [Hlt _]].
      destruct Hok as (_ & _ & _ & _ & _ & _ & _ & Hr3 & _).
      unfold is_u16 in Hr3. lia.
  - intros d1 Ht1 Hl1.
    rewrite end_of_active_video_line, Ht1, Hl1.
    rewrite line_case_last by assumption. reflexivity.
Qed.

Lemma small_timing_wraps : wraps_at_end small_timing.
Proof. apply small_timing_distinct. Qed.

Lemma current_line_stays_in_frame_witness :
  0 <= current_line (run_lines 25 (configure_timing small_timing power_on))
  < 10.
Proof.
  exact (proj1 (proj2 (current_line_stays_in_frame
                         small_timing power_on 25 small_timing_wraps))).
Defined.

(** C10 as stated fails for a profile with a single visible line: the
    event of line [video_end_line - 1 = video_start_line] takes the
    Active branch, the counter is not wrapped and reaches
    [video_end_line]. *)
Lemma current_line_leaves_frame :
  video_start_line one_line_timing < video_end_line one_line_timing /\
  current_line (run_lines 6 (configure_timing one_line_timing power_on))
  = video_end_line one_line_timing.
Proof. split; reflexivity. Qed.

(** ** Activation *)

Lemma configure_timing_timers (t : Timing) (d : Vga) :
  tim4 (configure_timing t d) = configure_h_timer t reset_timer /\
  tim3 (configure_timing t d)
  = write_ccr2 (u32 (ccr2 (configure_h_timer t reset_timer)) - 7)
      (configure_h_timer t reset_timer).
Proof. split; reflexivity. Qed.

(** C2, as the source has it.  For the profile with
    [total_line_pixels = 100], [sync = 10], [back_porch = 20],
    [visible = 60] and a lead of at most 23 pixels, [configure_timing]
    leaves tim4's compare registers at 10, 10+20-lead and 10+20+60, and
    tim3's at 10, 10+20-lead-7 and 10+20+60: tim3's second threshold is
    moved back by 7 after both timers were programmed alike. *)
Theorem configure_timing_compare_registers (lead : Z) (d : Vga) :
  0 <= lead <= 23 ->
  let d' := configure_timing (scenario_timing lead) d in
  ccr1 (tim4 d') = 10 /\
  ccr2 (tim4 d') = 10 + 20 - lead /\
  ccr3 (tim4 d') = 10 + 20 + 60 /\
  ccr1 (tim3 d') = 10 /\
  ccr2 (tim3 d') = 10 + 20 - lead - 7 /\
  ccr3 (tim3 d') = 10 + 20 + 60.
Proof.
  intros Hlead. cbv zeta.
  destruct (configure_timing_timers (scenario_timing lead) d) as [H4 H3].
  rewrite H4, H3.
  unfold configure_h_timer, write_ccr2, scenario_timing.
  cbn [ccr1 ccr2 ccr3 sync_pixels back_porch_pixels video_lead
       video_pixels].
  assert (Hsecond : u32 (10 + 20 - lead) = 10 + 20 - lead)
    by (apply u32_small; lia).
  repeat split; try reflexivity.
  - exact Hsecond.
  - rewrite !Hsecond. apply u32_small. lia.
Qed.

Lemma configure_timing_compare_registers_witness :
  ccr2 (tim4 (configure_timing (scenario_timing 5) power_on)) = 10 + 20 - 5 /\
  ccr2 (tim3 (configure_timing (scenario_timing 5) power_on))
  = 10 + 20 - 5 - 7.
Proof.
  assert (Hlead : 0 <= 5 <= 23) by lia.
  pose proof (configure_timing_compare_registers 5 power_on Hlead) as Hregs.
  cbv zeta in Hregs.
  destruct Hregs as (_ & H4 & _ & _ & H3 & _).
  split; [exact H4 | exact H3].
Defined.

(** C2 as stated fails for tim3: after activation with a lead of 5 its
    second compare threshold is 18, not 10+20-5. *)
Lemma configure_timing_tim3_moved_back :
  ccr2 (tim3 (configure_timing (scenario_timing 5) power_on)) = 18 /\
  18 <> 10 + 20 - 5.
Proof. split; [reflexivity | lia]. Qed.

(** ** The timer correction of the end-of-active-video event *)

(* The render step stores the Line Shape the rasterizer returns. *)
Lemma pend_sv_render_shape `{Rasterizers}
    (fuel : nat) (d dm : Vga) (r : Z) :
  is_rendered_state (state d) = true ->
  video_start_line (current_timing d) <= current_line d
  <= video_end_line (current_timing d) ->
  get_next_rasterizer fuel d = Some (r, dm) ->
  r <> 0 ->
  exists d',
    pend_sv_render fuel d = Some d' /\
    working_buffer_shape d'
    = fst (rasterize r
             (u32 (current_line d - video_start_line (current_timing d)))
             (working dm)) /\
    working d'
    = snd (rasterize r
             (u32 (current_line d - video_start_line (current_timing d)))
             (working dm)).
Proof.
  intros Hstate [Hlo Hhi] Hnext Hr. unfold pend_sv_render.
  rewrite Hstate.
  apply Z.leb_le in Hlo. apply Z.leb_le in Hhi. rewrite Hlo, Hhi. cbn.
  rewrite Hnext. apply Z.eqb_neq in Hr. rewrite Hr. cbn.
  destruct (rasterize r _ (working dm)) as [shape w].
  eexists. split; [reflexivity |]. split; reflexivity.
Qed.

(** C8.  Every end-of-visible-area event writes
    [sync_pixels + back_porch_pixels - video_lead + offset] (as a 32-bit
    word) to tim4's second compare register, the start-of-visible-area
    trigger, where [offset] is that of the stored Line Shape; the write
    is the first action of the event, before the PendSV request and
    before every store of the vertical state machine update; and the
    stored Line Shape is the one the last rasterizer returned. *)
Theorem end_of_active_video_corrects_trigger_first :
  (forall d : Vga,
      let t := current_timing d in
      let v := u32 (sync_pixels t + back_porch_pixels t - video_lead t
                    + offset (working_buffer_shape d)) in
      ccr2 (tim4 (end_of_active_video d)) = v /\
      exists events,
        log (end_of_active_video d)
        = log d ++ Tim4WriteCcr2 v :: PendSvSet
            :: events
            ++ [StoreLine (current_line (end_of_active_video d))] /\
        forallb vertical_event events = true) /\
  (forall (R : Rasterizers) (fuel : nat) (d dm : Vga) (r : Z),
      is_rendered_state (state d) = true ->
      video_start_line (current_timing d) <= current_line d
      <= video_end_line (current_timing d) ->
      get_next_rasterizer fuel (vga_hblank_interrupt (pend_sv_flip d))
      = Some (r, dm) ->
      r <> 0 ->
      exists d' shape,
        etl_armv7m_pend_sv_handler fuel d = Some d' /\
        shape = fst (rasterize r
                       (u32 (current_line d
                             - video_start_line (current_timing d)))
                       (working dm)) /\
        ccr2 (tim4 (end_of_active_video d'))
        = u32 (sync_pixels (current_timing d)
               + back_porch_pixels (current_timing d)
               - video_lead (current_timing d) + offset shape)).
Proof.
  split.
  - intros d. cbv zeta. split.
    + rewrite end_of_active_video_tim4. reflexivity.
    + apply end_of_active_video_log.
  - intros R fuel d dm r Hstate Hline Hnext Hr.
    destruct (pend_sv_render_shape fuel
                (vga_hblank_interrupt (pend_sv_flip d)) dm r)
      as [d' [Hrun [Hshape _]]].
    + unfold vga_hblank_interrupt, default_hblank_interrupt, pend_sv_flip.
      rewrite Hstate. exact Hstate.
    + unfold vga_hblank_interrupt, default_hblank_interrupt, pend_sv_flip.
      rewrite Hstate. exact Hline.
    + exact Hnext.
    + exact Hr.
    + exists d'. eexists. split; [exact Hrun |]. split; [reflexivity |].
      rewrite end_of_active_video_tim4. cbn.
      unfold vga_hblank_interrupt, default_hblank_interrupt, pend_sv_flip
        in Hshape.
      rewrite Hstate in Hshape. cbn in Hshape. rewrite <- Hshape.
      assert (Htiming : current_timing d' = current_timing d).
      { unfold pend_sv_render in Hrun. revert Hrun.
        unfold vga_hblank_interrupt, default_hblank_interrupt, pend_sv_flip.
        rewrite Hstate. cbn. rewrite Hstate.
        destruct ((video_start_line (current_timing d) <=? current_line d)
                  && (current_line d <=? video_end_line (current_timing d)));
          [| intros Hrun; inversion Hrun; reflexivity].
        unfold vga_hblank_interrupt, default_hblank_interrupt, pend_sv_flip
          in Hnext.
        rewrite Hstate in Hnext. rewrite Hnext.
        apply get_next_rasterizer_frame in Hnext.
        destruct (negb (r =? 0)).
        - destruct (rasterize r _ (working dm)) as [shape w].
          intros Hrun; inversion Hrun; subst. cbn. rewrite Hnext.
          reflexivity.
        - intros Hrun; inversion Hrun; subst. rewrite Hnext.
          reflexivity. }
      rewrite Htiming. reflexivity.
Qed.

Lemma render_example_scheduled :
  get_next_rasterizer 1 (vga_hblank_interrupt (pend_sv_flip render_example))
  = Some (7, set_current_band (mkBand 7 2 0)
               (flip_working_buffer render_example)).
Proof. vm_compute. reflexivity. Defined.

Lemma end_of_active_video_corrects_trigger_first_witness :
  exists d' shape,
    @etl_armv7m_pend_sv_handler solid_fill 1 render_example = Some d' /\
    shape = fst (@rasterize solid_fill 7
                   (u32 (current_line render_example
                         - video_start_line (current_timing render_example)))
                   (working (set_current_band (mkBand 7 2 0)
                               (flip_working_buffer render_example)))) /\
    ccr2 (tim4 (end_of_active_video d'))
    = u32 (sync_pixels (current_timing render_example)
           + back_porch_pixels (current_timing render_example)
           - video_lead (current_timing render_example) + offset shape).
Proof.
  assert (Hline : video_start_line (current_timing render_example)
                  <= current_line render_example
                  <= video_end_line (current_timing render_example))
    by (vm_compute; split; discriminate).
  assert (Hr : 7 <> 0) by discriminate.
  exact (proj2 end_of_active_video_corrects_trigger_first
           solid_fill 1%nat render_example
           (set_current_band (mkBand 7 2 0)
              (flip_working_buffer render_example))
           7 eq_refl Hline render_example_scheduled Hr).
Defined.

(** ** [clear_band_list] *)

Lemma end_of_active_video_taken (d : Vga) :
  band_list_taken (end_of_active_video d)
  = match line_case (current_timing d) (current_line d) with
    | BeforeVideo => true
    | _ => band_list_taken d
    end /\
  current_band (end_of_active_video d)
  = match line_case (current_timing d) (current_line d) with
    | BeforeVideo => head_snapshot d
    | _ => current_band d
    end.
Proof.
  unfold end_of_active_video, line_case, head_snapshot. unfold_stores. cbn.
  destruct (current_line d =? 0); [split; reflexivity |].
  destruct (current_line d =? vsync_start_line (current_timing d));
    [split; reflexivity |].
  destruct (current_line d =? vsync_end_line (current_timing d));
    [split; reflexivity |]. cbn.
  destruct (current_line d =? u16 (video_start_line (current_timing d) - 1)).
  { destruct (band_list_head d =? 0); split; reflexivity. }
  destruct (current_line d =? video_start_line (current_timing d));
    [split; reflexivity |].
  destruct (current_line d =? u16 (video_end_line (current_timing d) - 1));
    split; reflexivity.
Qed.

Lemma start_of_active_video_band_list (d : Vga) :
  band_list_head (start_of_active_video d) = band_list_head d /\
  band_list_taken (start_of_active_video d) = band_list_taken d.
Proof.
  unfold start_of_active_video.
  destruct (negb (is_displayed_state (state d))); split; reflexivity.
Qed.

Lemma pend_sv_handler_band_list `{Rasterizers} (fuel : nat) (d d' : Vga) :
  etl_armv7m_pend_sv_handler fuel d = Some d' ->
  band_list_head d' = band_list_head d /\
  band_list_taken d' = band_list_taken d.
Proof.
  unfold etl_armv7m_pend_sv_handler, vga_hblank_interrupt,
    default_hblank_interrupt.
  intros Hrun. apply pend_sv_render_frame in Hrun.
  destruct Hrun as (_ & _ & _ & _ & Hhead & Htaken).
  rewrite Hhead, Htaken. unfold pend_sv_flip.
  destruct (is_rendered_state (state d)); split; reflexivity.
Qed.

(** No handler writes the band-list head; the only handler that writes
    the taken flag is the end-of-active-video event, which sets it after
    snapshotting the head. *)
Lemma run_handler_band_list `{Rasterizers}
    (fuel : nat) (e : Exception) (d d' : Vga) :
  run_handler fuel e d = Some d' ->
  band_list_head d' = band_list_head d /\
  (band_list_taken d' = band_list_taken d \/
   e = Tim4Irq false true /\ d' = end_of_active_video d /\
   band_list_taken d' = true /\ current_band d' = head_snapshot d).
Proof.
  destruct e as [| cc2if cc3if |]; simpl; intros Hrun.
  - inversion Hrun; subst. split; [reflexivity | left; reflexivity].
  - inversion Hrun; subst. unfold etl_stm32f4xx_tim4_handler.
    destruct cc2if.
    + destruct (start_of_active_video_band_list d) as [Hhead Htaken].
      split; [exact Hhead | left; exact Htaken].
    + destruct cc3if.
      * split; [apply end_of_active_video_head |].
        destruct (end_of_active_video_taken d) as [Htaken Hband].
        destruct (line_case (current_timing d) (current_line d));
          try (left; exact Htaken).
        right. repeat split; assumption.
      * split; [reflexivity | left; reflexivity].
  - apply pend_sv_handler_band_list in Hrun.
    destruct Hrun as [Hhead Htaken]. cbn in Hhead, Htaken.
    split; [exact Hhead | left; exact Htaken].
Qed.

Lemma before_taken_step `{Rasterizers} (fuel : nat) (sl : Slot) (s s1 : Sys) :
  before_taken s ->
  sys_step fuel sl s = Some s1 ->
  before_taken s1 \/
  (sl = Handler (Tim4Irq false true) /\
   waiting (pc s) = true /\ band_list_head (drv s) = 0 /\
   band_list_taken (drv s) = false /\
   s1 = mkSys (pc s) (end_of_active_video (drv s)) /\
   band_list_taken (drv s1) = true /\
   current_band (drv s1) = mkBand 0 0 0).
Proof.
  intros Hbefore Hstep. destruct sl as [| e]; simpl in Hstep.
  - (* a foreground access *)
    inversion Hstep; subst. left. unfold clear_band_list_step.
    destruct Hbefore as [Hpc | [[Hpc Hhead] | [Hpc [Hhead Htaken]]]].
    + rewrite Hpc. right; left. split; reflexivity.
    + rewrite Hpc. right; right. repeat split. exact Hhead.
    + destruct (pc s); try discriminate.
      * rewrite Htaken. right; right. repeat split; assumption.
      * right; right. repeat split; assumption.
  - (* a handler *)
    destruct (run_handler fuel e (drv s)) as [d' |] eqn:Hrun;
      [| discriminate].
    inversion Hstep; subst.
    apply run_handler_band_list in Hrun.
    destruct Hrun as [Hhead' Htaken'].
    destruct Hbefore as [Hpc | [[Hpc Hhead] | [Hpc [Hhead Htaken]]]].
    + left. left. exact Hpc.
    + left. right; left. split; [exact Hpc |]. cbn. congruence.
    + destruct Htaken' as [Hsame | (He & Hd' & Hset & Hband)].
      * left. right; right. cbn. repeat split; congruence.
      * right. subst e. cbn. repeat split; try assumption.
        -- congruence.
        -- rewrite Hband. unfold head_snapshot. rewrite Hhead.
           reflexivity.
Qed.

Lemma after_taken_step `{Rasterizers} (fuel : nat) (sl : Slot) (s s1 : Sys) :
  after_taken s ->
  sys_step fuel sl s = Some s1 ->
  after_taken s1.
Proof.
  intros [Hpc Htaken] Hstep. destruct sl as [| e]; simpl in Hstep.
  - inversion Hstep; subst. unfold clear_band_list_step, after_taken.
    destruct Hpc as [Hpc | Hpc].
    + destruct (pc s); try discriminate.
      * rewrite Htaken. cbn. split; [right; reflexivity | exact Htaken].
      * cbn. split; [left; reflexivity | exact Htaken].
    + rewrite Hpc. split; [right; exact Hpc | exact Htaken].
  - destruct (run_handler fuel e (drv s)) as [d' |] eqn:Hrun;
      [| discriminate].
    inversion Hstep; subst.
    apply run_handler_band_list in Hrun.
    destruct Hrun as [_ [Hsame | (_ & _ & Hset & _)]];
      split; try exact Hpc; cbn; congruence.
Qed.

Lemma after_taken_run `{Rasterizers} (fuel : nat) (sched : list Slot) :
  forall s s',
    after_taken s ->
    sys_run fuel sched s = Some s' ->
    after_taken s'.
Proof.
  induction sched as [| sl sched IH]; intros s s' Hafter Hrun;
    simpl in Hrun.
  - inversion Hrun; subst. exact Hafter.
  - destruct (sys_step fuel sl s) as [s1 |] eqn:Hstep; [| discriminate].
    apply (IH s1 s'); [| exact Hrun].
    apply (after_taken_step fuel sl s s1); assumption.
Qed.

(* A return is preceded by an end-of-active-video event that found the
   foreground waiting with the empty list installed and the flag clear. *)
Lemma return_needs_taken `{Rasterizers} (fuel : nat) (sched : list Slot) :
  forall s s',
    before_taken s ->
    sys_run fuel sched s = Some s' ->
    pc s' = Returned ->
    exists pre post sa,
      sched = pre ++ Handler (Tim4Irq false true) :: post /\
      sys_run fuel pre s = Some sa /\
      waiting (pc sa) = true /\
      band_list_head (drv sa) = 0 /\
      band_list_taken (drv sa) = false /\
      band_list_taken (end_of_active_video (drv sa)) = true /\
      current_band (end_of_active_video (drv sa)) = mkBand 0 0 0 /\
      sys_run fuel post (mkSys (pc sa) (end_of_active_video (drv sa)))
      = Some s' /\
      band_list_taken (drv s') = true.
Proof.
  induction sched as [| sl sched IH]; intros s s' Hbefore Hrun Hret;
    simpl in Hrun.
  - inversion Hrun; subst.
    destruct Hbefore as [Hpc | [[Hpc _] | [Hpc _]]];
      rewrite Hret in Hpc; discriminate.
  - destruct (sys_step fuel sl s) as [s1 |] eqn:Hstep; [| discriminate].
    destruct (before_taken_step fuel sl s s1 Hbefore Hstep)
      as [Hbefore1 | (Hsl & Hwait & Hhead & Htaken & Hs1 & Hset & Hband)].
    + destruct (IH s1 s' Hbefore1 Hrun Hret)
        as (pre & post & sa & Hsched & Hpre & Hrest).
      exists (sl :: pre), post, sa. split; [rewrite Hsched; reflexivity |].
      split; [simpl; rewrite Hstep; exact Hpre | exact Hrest].
    + exists [], sched, s. subst s1. cbn in Hset, Hband.
      split; [rewrite Hsl; reflexivity |].
      repeat split; try assumption.
      assert (Hafter : after_taken
                         (mkSys (pc s) (end_of_active_video (drv s)))).
      { split; [left; exact Hwait | exact Hset]. }
      apply (after_taken_run fuel sched _ s' Hafter Hrun).
Qed.

(** C6.  [clear_band_list] first installs the empty list (head null, flag
    stored false); while it reads the flag false it executes
    wait-for-interrupt and tests again instead of returning; and for every
    interleaving of its accesses with the interrupt handlers, if it has
    returned then, at a point where it was waiting with the empty list
    installed and the flag false, an end-of-active-video event set the
    flag (snapshotting the empty band), and the flag is still true at the
    return. *)
Theorem clear_band_list_returns_after_taken :
  (forall d : Vga,
      clear_band_list_step (clear_band_list_step (mkSys AtSetHead d))
      = mkSys AtTest (configure_band_list 0 d) /\
      band_list_head (configure_band_list 0 d) = 0 /\
      band_list_taken (configure_band_list 0 d) = false) /\
  (forall d : Vga,
      band_list_taken d = false ->
      clear_band_list_step (mkSys AtTest d) = mkSys AtWfi d /\
      clear_band_list_step (mkSys AtWfi d)
      = mkSys AtTest (wait_for_interrupt d) /\
      band_list_taken (wait_for_interrupt d) = false) /\
  (forall (R : Rasterizers) (fuel : nat) (sched : list Slot)
          (d0 : Vga) (s' : Sys),
      sys_run fuel sched (mkSys AtSetHead d0) = Some s' ->
      pc s' = Returned ->
      exists pre post sa,
        sched = pre ++ Handler (Tim4Irq false true) :: post /\
        sys_run fuel pre (mkSys AtSetHead d0) = Some sa /\
        waiting (pc sa) = true /\
        band_list_head (drv sa) = 0 /\
        band_list_taken (drv sa) = false /\
        band_list_taken (end_of_active_video (drv sa)) = true /\
        current_band (end_of_active_video (drv sa)) = mkBand 0 0 0 /\
        sys_run fuel post (mkSys (pc sa) (end_of_active_video (drv sa)))
        = Some s' /\
        band_list_taken (drv s') = true).
Proof.
  split; [| split].
  - intros d. repeat split.
  - intros d Htaken. unfold clear_band_list_step. cbn.
    rewrite Htaken. repeat split.
  - intros R fuel sched d0 s' Hrun Hret.
    apply (return_needs_taken fuel sched (mkSys AtSetHead d0) s').
    + left. reflexivity.
    + exact Hrun.
    + exact Hret.
Qed.

Lemma example_schedule_returns :
  @sys_run solid_fill 1 example_schedule (mkSys AtSetHead example_start)
  = Some example_final /\
  pc example_final = Returned.
Proof. split; [vm_compute; reflexivity | reflexivity]. Defined.

Lemma clear_band_list_returns_after_taken_witness :
  (clear_band_list_step (mkSys AtTest power_on) = mkSys AtWfi power_on /\
   clear_band_list_step (mkSys AtWfi power_on)
   = mkSys AtTest (wait_for_interrupt power_on) /\
   band_list_taken (wait_for_interrupt power_on) = false) /\
  exists pre post sa,
    example_schedule = pre ++ Handler (Tim4Irq false true) :: post /\
    @sys_run solid_fill 1 pre (mkSys AtSetHead example_start) = Some sa /\
    waiting (pc sa) = true /\
    band_list_head (drv sa) = 0 /\
    band_list_taken (drv sa) = false /\
    band_list_taken (end_of_active_video (drv sa)) = true /\
    current_band (end_of_active_video (drv sa)) = mkBand 0 0 0 /\
    @sys_run solid_fill 1 post
      (mkSys (pc sa) (end_of_active_video (drv sa))) = Some example_final /\
    band_list_taken (drv example_final) = true.
Proof.
  split.
  - apply (proj1 (proj2 clear_band_list_returns_after_taken) power_on).
    reflexivity.
  - exact (proj2 (proj2 clear_band_list_returns_after_taken)
             solid_fill 1%nat example_schedule example_start example_final
             (proj1 example_schedule_returns)
             (proj2 example_schedule_returns)).
Defined.

(** * Further properties of the driver *)

(** ** The band scheduler on a null-terminated list *)

Lemma next_rasterizers_add (fuel a b : nat) :
  forall d,
    next_rasterizers fuel (a + b) d
    = match next_rasterizers fuel a d with
      | None => None
      | Some (ra, d1) =>
          match next_rasterizers fuel b d1 with
          | None => None
          | Some (rb, d2) => Some (ra ++ rb, d2)
          end
      end.
Proof.
  induction a as [| a IH]; intros d; simpl.
  - destruct (next_rasterizers fuel b d) as [[rb d2] |]; reflexivity.
  - destruct (get_next_rasterizer fuel d) as [[r d1] |]; [| reflexivity].
    rewrite IH.
    destruct (next_rasterizers fuel a d1) as [[ra d2] |]; [| reflexivity].
    destruct (next_rasterizers fuel b d2) as [[rb d3] |]; reflexivity.
Qed.

(* A band with [n] lines left answers the next [n] calls. *)
Lemma serve_band (n : nat) :
  forall fuel d,
    line_count (current_band d) = Z.of_nat n ->
    next_rasterizers (S fuel) n d
    = Some (repeat (rasterizer (current_band d)) n,
            set_current_band
              (mkBand (rasterizer (current_band d)) 0
                 (next (current_band d))) d).
Proof.
  induction n as [| n IH]; intros fuel d Hcount.
  - simpl. destruct d as [? ? ? ? ? ? ? [r c nx] ? ? ? ? ? ? ? ? ?].
    simpl in *. subst c. reflexivity.
  - assert (Hnz : (line_count (current_band d) =? 0) = false)
      by (apply Z.eqb_neq; lia).
    change (next_rasterizers (S fuel) (S n) d)
      with (match get_next_rasterizer (S fuel) d with
            | None => None
            | Some (r, d') =>
                match next_rasterizers (S fuel) n d' with
                | None => None
                | Some (rs, d'') => Some (r :: rs, d'')
                end
            end).
    simpl get_next_rasterizer. rewrite Hnz. simpl negb. cbv iota.
    rewrite IH by (simpl; lia).
    reflexivity.
Qed.

(* With no lines and no next band left every call answers none. *)
Lemma serve_exhausted (k : nat) :
  forall fuel d,
    line_count (current_band d) = 0 ->
    next (current_band d) = 0 ->
    next_rasterizers (S fuel) k d = Some (repeat 0 k, d).
Proof.
  induction k as [| k IH]; intros fuel d Hcount Hnext; [reflexivity |].
  simpl. rewrite Hcount, Hnext. simpl.
  rewrite IH by assumption. reflexivity.
Qed.

(* On a null-terminated list a call returns within one nested call per
   remaining band. *)
Lemma get_next_rasterizer_returns (l : list Band) :
  forall fuel d,
    band_chain (bands d) (next (current_band d)) l ->
    (List.length l < fuel)%nat ->
    exists res, get_next_rasterizer fuel d = Some res.
Proof.
  induction l as [| b l IH]; intros fuel d Hchain Hfuel;
    (destruct fuel as [| fuel]; [simpl in Hfuel; lia |]); simpl.
  - destruct (line_count (current_band d) =? 0); simpl; [| eauto].
    simpl in Hchain. rewrite Hchain. simpl. eauto.
  - destruct (line_count (current_band d) =? 0); simpl; [| eauto].
    destruct Hchain as (Hp & Hb & Hrest).
    apply Z.eqb_neq in Hp. rewrite Hp. simpl.
    apply IH.
    + simpl. rewrite Hb. exact Hrest.
    + simpl in Hfuel. lia.
Qed.

(* Calls on an emptied band continue with the band it links to. *)
Lemma serve_next_band (fuel k : nat) (d : Vga) :
  line_count (current_band d) = 0 ->
  next (current_band d) <> 0 ->
  (exists res,
      get_next_rasterizer fuel
        (set_current_band (bands d (next (current_band d))) d) = Some res) ->
  option_map fst (next_rasterizers (S fuel) k d)
  = option_map fst
      (next_rasterizers (S fuel) k
         (set_current_band (bands d (next (current_band d))) d)).
Proof.
  intros Hcount Hnext [res Hres].
  destruct k as [| k]; [reflexivity |].
  change (next_rasterizers (S fuel) (S k) d)
    with (match get_next_rasterizer (S fuel) d with
          | None => None
          | Some (r, d') =>
              match next_rasterizers (S fuel) k d' with
              | None => None
              | Some (rs, d'') => Some (r :: rs, d'')
              end
          end).
  change (next_rasterizers (S fuel) (S k)
            (set_current_band (bands d (next (current_band d))) d))
    with (match get_next_rasterizer (S fuel)
                  (set_current_band (bands d (next (current_band d))) d) with
          | None => None
          | Some (r, d') =>
              match next_rasterizers (S fuel) k d' with
              | None => None
              | Some (rs, d'') => Some (r :: rs, d'')
              end
          end).
  rewrite (get_next_rasterizer_more_fuel fuel _ res Hres).
  simpl get_next_rasterizer.
  apply Z.eqb_eq in Hcount. apply Z.eqb_neq in Hnext.
  rewrite Hcount, Hnext. simpl negb. cbv iota.
  rewrite Hres. reflexivity.
Qed.

Lemma serve_chain (l : list Band) :
  forall fuel extra d,
    band_chain (bands d) (next (current_band d)) l ->
    Forall (fun b => 0 <= line_count b) (current_band d :: l) ->
    (List.length l < fuel)%nat ->
    option_map fst
      (next_rasterizers fuel
         (List.length (band_lines (current_band d :: l)) + extra) d)
    = Some (band_lines (current_band d :: l) ++ repeat 0 extra).
Proof.
  induction l as [| b l IH]; intros fuel extra d Hchain Hpos Hfuel;
    (destruct fuel as [| fuel]; [simpl in Hfuel; lia |]).
  - apply Forall_cons_iff in Hpos. destruct Hpos as [Hcur _].
    simpl band_lines. rewrite app_nil_r, repeat_length.
    rewrite next_rasterizers_add.
    rewrite serve_band by (rewrite Z2Nat.id; [reflexivity | exact Hcur]).
    rewrite serve_exhausted; [reflexivity | reflexivity | exact Hchain].
  - apply Forall_cons_iff in Hpos. destruct Hpos as [Hcur Hrest].
    destruct Hchain as (Hp & Hb & Hchain).
    change (band_lines (current_band d :: b :: l))
      with (repeat (rasterizer (current_band d))
              (Z.to_nat (line_count (current_band d)))
            ++ band_lines (b :: l)).
    rewrite length_app, repeat_length, <- Nat.add_assoc.
    rewrite next_rasterizers_add.
    rewrite serve_band by (rewrite Z2Nat.id; [reflexivity | exact Hcur]).
    set (d1 := set_current_band
                 (mkBand (rasterizer (current_band d)) 0
                    (next (current_band d))) d).
    assert (Hserve :
              option_map fst
                (next_rasterizers (S fuel)
                   (List.length (band_lines (b :: l)) + extra) d1)
              = Some (band_lines (b :: l) ++ repeat 0 extra)).
    { rewrite serve_next_band.
      - change (bands d1 (next (current_band d1)))
          with (bands d (next (current_band d))).
        rewrite Hb.
        apply (IH (S fuel) extra (set_current_band b d1)).
        + exact Hchain.
        + exact Hrest.
        + simpl in Hfuel. lia.
      - reflexivity.
      - exact Hp.
      - change (bands d1 (next (current_band d1)))
          with (bands d (next (current_band d))).
        rewrite Hb.
        apply (get_next_rasterizer_returns l).
        + exact Hchain.
        + simpl in Hfuel. lia. }
    destruct (next_rasterizers (S fuel)
                (List.length (band_lines (b :: l)) + extra) d1)
      as [[rb d2] |]; [| discriminate].
    simpl in Hserve. injection Hserve as Hrb.
    simpl option_map. rewrite Hrb, app_assoc. reflexivity.
Qed.

(** X1.  On a null-terminated band list the scheduler returns, call after
    call, the rasterizer of each band as many times as its line count, in
    list order, and none on every call after that; no call needs more
    nested calls than there are bands left. *)
Theorem scheduler_serves_band_list
    (l : list Band) (fuel extra : nat) (d : Vga) :
  band_chain (bands d) (next (current_band d)) l ->
  Forall (fun b => 0 <= line_count b) (current_band d :: l) ->
  (List.length l < fuel)%nat ->
  option_map fst
    (next_rasterizers fuel
       (List.length (band_lines (current_band d :: l)) + extra) d)
  = Some (band_lines (current_band d :: l) ++ repeat 0 extra).
Proof. intros Hchain Hpos Hfuel. apply serve_chain; assumption. Qed.

Lemma scheduler_serves_band_list_witness :
  option_map fst (next_rasterizers 2 (3 + 4) two_band_example)
  = Some ([101; 101; 102] ++ repeat 0 4).
Proof.
  apply (scheduler_serves_band_list [mkBand 102 1 0] 2 4 two_band_example).
  - simpl. repeat split. lia.
  - repeat constructor; simpl; lia.
  - simpl. lia.
Defined.

(** X2.  When the current band and every band reachable from it have no
    lines left and a non-null [next] (a cycle of exhausted bands), the
    scheduler never returns: whatever the bound on nested calls, the
    recursion reaches it. *)
Theorem scheduler_loops_on_exhausted_cycle (P : Band -> Prop) (fuel : nat) :
  forall d,
    (forall b, P b ->
               line_count b = 0 /\ next b <> 0 /\ P (bands d (next b))) ->
    P (current_band d) ->
    get_next_rasterizer fuel d = None.
Proof.
  induction fuel as [| fuel IH]; intros d Hclosed Hcur; [reflexivity |].
  destruct (Hclosed _ Hcur) as (Hcount & Hnext & Hmem).
  simpl. apply Z.eqb_eq in Hcount. apply Z.eqb_neq in Hnext.
  rewrite Hcount, Hnext. simpl.
  apply IH.
  - exact Hclosed.
  - exact Hmem.
Qed.

Lemma scheduler_loops_on_exhausted_cycle_witness :
  get_next_rasterizer 1000 loop_example = None.
Proof.
  apply (scheduler_loops_on_exhausted_cycle (fun b => b = mkBand 7 0 512)).
  - intros b Hb. subst b. simpl. repeat split. lia.
  - reflexivity.
Defined.

(* The scheduler reads nothing but current_band and the band storage. *)
Lemma get_next_rasterizer_reads (fuel : nat) :
  forall d1 d2,
    current_band d1 = current_band d2 ->
    bands d1 = bands d2 ->
    match get_next_rasterizer fuel d1, get_next_rasterizer fuel d2 with
    | Some (r1, d1'), Some (r2, d2') =>
        r1 = r2 /\ current_band d1' = current_band d2' /\
        bands d1' = bands d2'
    | None, None => True
    | _, _ => False
    end.
Proof.
  induction fuel as [| fuel IH]; intros d1 d2 Hband Hmem; simpl; [exact I |].
  rewrite <- Hband.
  destruct (line_count (current_band d1) =? 0); simpl.
  - destruct (next (current_band d1) =? 0); simpl.
    + repeat split; assumption.
    + apply IH; simpl; [rewrite Hmem; reflexivity | exact Hmem].
  - repeat split. exact Hmem.
Qed.

Lemma next_rasterizers_reads (fuel k : nat) :
  forall d1 d2,
    current_band d1 = current_band d2 ->
    bands d1 = bands d2 ->
    option_map fst (next_rasterizers fuel k d1)
    = option_map fst (next_rasterizers fuel k d2).
Proof.
  induction k as [| k IH]; intros d1 d2 Hband Hmem; [reflexivity |].
  simpl.
  pose proof (get_next_rasterizer_reads fuel d1 d2 Hband Hmem) as Hcall.
  destruct (get_next_rasterizer fuel d1) as [[r1 d1'] |],
           (get_next_rasterizer fuel d2) as [[r2 d2'] |];
    try contradiction; [| reflexivity].
  destruct Hcall as (Hr & Hband' & Hmem'). subst r2.
  specialize (IH d1' d2' Hband' Hmem').
  destruct (next_rasterizers fuel k d1') as [[rs1 e1] |],
           (next_rasterizers fuel k d2') as [[rs2 e2] |];
    simpl in *; try discriminate; [| reflexivity].
  injection IH as Hrs. rewrite Hrs. reflexivity.
Qed.

(** X3.  Installing a band list does not disturb the band being scanned:
    after [configure_band_list] the scheduler returns the same
    rasterizers, call after call, as it would have without it. *)
Theorem configure_band_list_keeps_schedule
    (fuel k : nat) (head : Z) (d : Vga) :
  option_map fst (next_rasterizers fuel k (configure_band_list head d))
  = option_map fst (next_rasterizers fuel k d).
Proof. apply next_rasterizers_reads; reflexivity. Qed.

(** X4.  The Starting event hands the installed list to the scheduler:
    after the event of line [video_start_line - 1] the scheduler returns
    the lines of the null-terminated list linked from [band_list_head],
    band by band, and none afterwards; with no list installed it returns
    none from the first call on. *)
Theorem starting_event_loads_band_list
    (l : list Band) (fuel extra : nat) (d : Vga) :
  line_case (current_timing d) (current_line d) = BeforeVideo ->
  band_chain (bands d) (band_list_head d) l ->
  Forall (fun b => 0 <= line_count b) l ->
  (List.length l < fuel)%nat ->
  option_map fst
    (next_rasterizers fuel (List.length (band_lines l) + extra)
       (end_of_active_video d))
  = Some (band_lines l ++ repeat 0 extra).
Proof.
  intros Hcase Hchain Hpos Hfuel.
  destruct (end_of_active_video_taken d) as [_ Hband].
  rewrite Hcase in Hband. unfold head_snapshot in Hband.
  destruct l as [| b l].
  - simpl in Hchain. rewrite Hchain in Hband. simpl in Hband.
    pose proof (serve_chain [] fuel extra (end_of_active_video d)) as Hserve.
    rewrite Hband in Hserve. simpl in Hserve. apply Hserve.
    + reflexivity.
    + repeat constructor. simpl. lia.
    + exact Hfuel.
  - destruct Hchain as (Hp & Hb & Hchain).
    apply Z.eqb_neq in Hp. rewrite Hp, Hb in Hband.
    pose proof (serve_chain l fuel extra (end_of_active_video d)) as Hserve.
    rewrite Hband, end_of_active_video_bands in Hserve. apply Hserve.
    + exact Hchain.
    + exact Hpos.
    + simpl in Hfuel. lia.
Qed.

Lemma starting_event_loads_band_list_witness :
  option_map fst
    (next_rasterizers 2 (1 + 2)
       (end_of_active_video
          (run_lines 5 example_start)))
  = Some ([102] ++ repeat 0 2).
Proof.
  apply (starting_event_loads_band_list [mkBand 102 1 0] 2 2
           (run_lines 5 example_start)).
  - reflexivity.
  - vm_compute. split; [discriminate | split; reflexivity].
  - repeat constructor. simpl. lia.
  - simpl. lia.
Defined.

(** ** The line counter and the state between events *)

Lemma end_of_active_video_line_mod (d : Vga) :
  wraps_at_end (current_timing d) ->
  0 <= current_line d < video_end_line (current_timing d) ->
  current_line (end_of_active_video d)
  = (current_line d + 1) mod video_end_line (current_timing d).
Proof.
  intros Hwrap Hline. rewrite end_of_active_video_line.
  pose proof Hwrap as [Hok _].
  destruct Hok as (_ & _ & _ & _ & _ & _ & _ & _ & Hr4).
  unfold is_u16 in Hr4.
  destruct (Z.eq_dec (current_line d)
              (video_end_line (current_timing d) - 1)) as [Hlast | Hnot].
  - rewrite Hlast, line_case_last by assumption.
    replace (video_end_line (current_timing d) - 1 + 1)
      with (video_end_line (current_timing d)) by lia.
    symmetry. apply Z.mod_same. lia.
  - assert (Hcase : line_case (current_timing d) (current_line d)
                    <> LastLine)
      by (apply line_case_not_last; [assumption | lia]).
    rewrite Z.mod_small by lia.
    assert (Hnext : u32 (current_line d + 1) = current_line d + 1)
      by (apply u32_small; lia).
    destruct (line_case (current_timing d) (current_line d));
      try congruence; exact Hnext.
Qed.

(** X5.  The line counter counts modulo [video_end_line]: on a profile
    whose last line is no other threshold, [n] end-of-active-video events
    take a counter inside the frame from [L] to
    [(L + n) mod video_end_line]. *)
Theorem line_counter_counts_modulo (n : nat) :
  forall d,
    wraps_at_end (current_timing d) ->
    0 <= current_line d < video_end_line (current_timing d) ->
    current_line (run_lines n d)
    = (current_line d + Z.of_nat n) mod video_end_line (current_timing d).
Proof.
  induction n as [| n IH]; intros d Hwrap Hline.
  - simpl. rewrite Z.add_0_r. symmetry. apply Z.mod_small. exact Hline.
  - simpl run_lines.
    assert (Hvel : 0 < video_end_line (current_timing d)) by lia.
    rewrite IH.
    + rewrite end_of_active_video_timing.
      rewrite end_of_active_video_line_mod by assumption.
      rewrite Z.add_mod_idemp_l by lia.
      f_equal. lia.
    + rewrite end_of_active_video_timing. exact Hwrap.
    + rewrite end_of_active_video_timing.
      rewrite end_of_active_video_line_mod by assumption.
      apply Z.mod_pos_bound. exact Hvel.
Qed.

Lemma line_counter_counts_modulo_witness :
  current_line (run_lines 1234 (configure_timing timing_800x600 power_on))
  = (0 + 1234) mod 628.
Proof.
  apply (line_counter_counts_modulo 1234
           (configure_timing timing_800x600 power_on)).
  - apply timing_800x600_distinct.
  - simpl. lia.
Defined.

Lemma end_of_active_video_line_state (d : Vga) :
  distinct_lines (current_timing d) ->
  line_state_ok d ->
  line_state_ok (end_of_active_video d).
Proof.
  intros Hdistinct Hok.
  destruct (distinct_lines_bounds _ Hdistinct) as (H2 & Hlt & Hmax & Hs & He).
  unfold line_state_ok in *. cbv zeta in *.
  rewrite end_of_active_video_timing, end_of_active_video_state,
    end_of_active_video_line.
  set (t := current_timing d) in *.
  destruct Hok as [[HL _] | [[HL Hst] | [[HL Hst] | [HL Hst]]]].
  - (* line 0 *)
    rewrite HL. change (line_case t 0) with FrameStart.
    right; left. split; [| reflexivity].
    change (u32 (0 + 1)) with 1. lia.
  - (* a blank line *)
    destruct (Z.eq_dec (current_line d) (video_start_line t - 1))
      as [Hlast | Hnot].
    + rewrite Hlast, line_case_before_video by assumption.
      right; right; left. split; [| reflexivity].
      rewrite u32_small by lia. lia.
    + assert (Hquiet : quiet_line t (current_line d))
        by (apply quiet_before_video; [assumption | lia]).
      rewrite u32_small by lia.
      right; left.
      destruct Hquiet as [Hcase | Hcase]; rewrite Hcase;
        (split; [lia | exact Hst]).
  - (* the starting line *)
    rewrite HL, line_case_video_start by assumption.
    right; right; right. split; [| reflexivity].
    rewrite u32_small by lia. lia.
  - (* an active line *)
    destruct (Z.eq_dec (current_line d) (video_end_line t - 1))
      as [Hlast | Hnot].
    + rewrite Hlast, line_case_last by apply Hdistinct.
      left. split; reflexivity.
    + assert (Hquiet : quiet_line t (current_line d))
        by (apply quiet_during_video; [assumption | lia]).
      rewrite u32_small by lia.
      right; right; right.
      destruct Hquiet as [Hcase | Hcase]; rewrite Hcase;
        (split; [lia | exact Hst]).
Qed.

(* The render step leaves the state, the counter and the profile. *)
Lemma pend_sv_render_vertical `{Rasterizers} (fuel : nat) (d d' : Vga) :
  pend_sv_render fuel d = Some d' ->
  state d' = state d /\ current_line d' = current_line d /\
  current_timing d' = current_timing d.
Proof.
  unfold pend_sv_render. intros Hrun.
  destruct (is_rendered_state (state d));
    [| inversion Hrun; subst; auto].
  destruct ((video_start_line (current_timing d) <=? current_line d)
            && (current_line d <=? video_end_line (current_timing d)));
    [| inversion Hrun; subst; auto].
  destruct (get_next_rasterizer fuel d) as [[r dm] |] eqn:Hnext;
    [| discriminate].
  apply get_next_rasterizer_frame in Hnext.
  destruct (negb (r =? 0)).
  - destruct (rasterize r _ (working dm)) as [shape w].
    inversion Hrun; subst. rewrite Hnext. cbn. auto.
  - inversion Hrun; subst. rewrite Hnext. cbn. auto.
Qed.

(* Only the end-of-active-video event writes the state, the counter;
   no handler writes the profile. *)
Lemma run_handler_vertical `{Rasterizers}
    (fuel : nat) (e : Exception) (d d' : Vga) :
  run_handler fuel e d = Some d' ->
  (state d' = state d /\ current_line d' = current_line d /\
   current_timing d' = current_timing d) \/
  (e = Tim4Irq false true /\ d' = end_of_active_video d).
Proof.
  destruct e as [| cc2if cc3if |]; simpl; intros Hrun.
  - inversion Hrun; subst. left. repeat split.
  - inversion Hrun; subst. unfold etl_stm32f4xx_tim4_handler.
    destruct cc2if.
    + left. unfold start_of_active_video.
      destruct (negb (is_displayed_state (state d))); repeat split.
    + destruct cc3if; [right; split; reflexivity | left; repeat split].
  - left. unfold etl_armv7m_pend_sv_handler, vga_hblank_interrupt,
      default_hblank_interrupt in Hrun.
    apply pend_sv_render_vertical in Hrun.
    destruct Hrun as (Hstate & Hline & Htiming).
    rewrite Hstate, Hline, Htiming. unfold pend_sv_flip. cbn.
    destruct (is_rendered_state (state d)); repeat split.
Qed.

Lemma run_handlers_line_state `{Rasterizers}
    (fuel : nat) (es : list Exception) :
  forall d d',
    distinct_lines (current_timing d) ->
    line_state_ok d ->
    run_handlers fuel es d = Some d' ->
    line_state_ok d' /\ current_timing d' = current_timing d.
Proof.
  induction es as [| e es IH]; intros d d' Hdistinct Hok Hrun; simpl in Hrun.
  - inversion Hrun; subst. split; [exact Hok | reflexivity].
  - destruct (run_handler fuel e d) as [d1 |] eqn:Hstep; [| discriminate].
    destruct (run_handler_vertical fuel e d d1 Hstep)
      as [(Hstate & Hline & Htiming) | [_ Hd1]].
    + destruct (IH d1 d') as [Hok' Htiming']; try assumption.
      * rewrite Htiming. exact Hdistinct.
      * unfold line_state_ok in *. rewrite Hstate, Hline, Htiming.
        exact Hok.
      * split; [exact Hok' | congruence].
    + subst d1. destruct (IH (end_of_active_video d) d')
        as [Hok' Htiming']; try assumption.
      * rewrite end_of_active_video_timing. exact Hdistinct.
      * apply end_of_active_video_line_state; assumption.
      * split; [exact Hok' |].
        rewrite Htiming'. apply end_of_active_video_timing.
Qed.

(** X6.  On a profile with distinct threshold lines, whatever handlers
    run in whatever order, the vertical state stays the one that goes
    with the line counter: nothing rendered on line 0, Blank up to
    [video_start_line - 1], Starting on [video_start_line], Active after
    it.  So [in_vblank] holds exactly when the state is not a rendered
    one, and a displayed state means line 0 or a line after
    [video_start_line]. *)
Theorem handlers_keep_line_state `{Rasterizers}
    (fuel : nat) (es : list Exception) (d d' : Vga) :
  distinct_lines (current_timing d) ->
  line_state_ok d ->
  run_handlers fuel es d = Some d' ->
  line_state_ok d' /\
  in_vblank d' = negb (is_rendered_state (state d')) /\
  (is_displayed_state (state d') = true ->
   current_line d' = 0
   \/ video_start_line (current_timing d') < current_line d').
Proof.
  intros Hdistinct Hok Hrun.
  destruct (run_handlers_line_state fuel es d d' Hdistinct Hok Hrun)
    as [Hok' Htiming].
  rewrite <- Htiming in Hdistinct.
  destruct (distinct_lines_bounds _ Hdistinct) as (H2 & _).
  split; [exact Hok' |].
  unfold in_vblank, line_state_ok in *. cbv zeta in Hok'.
  destruct Hok' as [[HL Hst] | [[HL Hst] | [[HL Hst] | [HL Hst]]]];
    rewrite Hst.
  - split.
    + apply Z.ltb_lt. lia.
    + intros _. left. exact HL.
  - split; [apply Z.ltb_lt; lia | discriminate].
  - split; [apply Z.ltb_ge; lia | discriminate].
  - split; [apply Z.ltb_ge; lia | intros _; right; lia].
Qed.

Lemma handlers_keep_line_state_witness :
  exists d',
    @run_handlers solid_fill 1 example_handlers
      (configure_timing small_timing power_on) = Some d' /\
    line_state_ok d' /\
    in_vblank d' = negb (is_rendered_state (state d')).
Proof.
  assert (Hstart : line_state_ok (configure_timing small_timing power_on))
    by (left; split; reflexivity).
  destruct (@run_handlers solid_fill 1 example_handlers
              (configure_timing small_timing power_on)) as [d' |] eqn:Hrun;
    [| vm_compute in Hrun; discriminate].
  exists d'. split; [reflexivity |].
  destruct (@handlers_keep_line_state solid_fill 1 example_handlers
              (configure_timing small_timing power_on) d'
              small_timing_distinct Hstart Hrun) as (Hok & Hvblank & _).
  split; assumption.
Defined.

(** X7.  In a state that goes with its line counter the render step of
    the PendSV handler consults the scheduler exactly in the rendered
    states, and the line index it hands to the rasterizer is
    [current_line - video_start_line], without wrap-around and below the
    number of visible lines. *)
Theorem pend_sv_render_visible_line `{Rasterizers} (fuel : nat) (d : Vga) :
  distinct_lines (current_timing d) ->
  line_state_ok d ->
  let visible := current_line d - video_start_line (current_timing d) in
  if is_rendered_state (state d) then
    0 <= visible
    < video_end_line (current_timing d) - video_start_line (current_timing d)
    /\
    pend_sv_render fuel d
    = match get_next_rasterizer fuel d with
      | None => None
      | Some (r, dm) =>
          if negb (r =? 0) then
            let '(shape, w) := rasterize r visible (working dm) in
            Some (set_working_buffer_shape shape (set_working w dm))
          else Some dm
      end
  else pend_sv_render fuel d = Some d.
Proof.
  intros Hdistinct Hok. cbv zeta.
  destruct (distinct_lines_bounds _ Hdistinct) as (H2 & Hlt & Hmax & _).
  unfold pend_sv_render.
  destruct (is_rendered_state (state d)) eqn:Hrendered; [| reflexivity].
  unfold line_state_ok in Hok. cbv zeta in Hok.
  assert (Hline : video_start_line (current_timing d) <= current_line d
                  < video_end_line (current_timing d)).
  { destruct Hok as [[HL Hst] | [[HL Hst] | [[HL Hst] | [HL Hst]]]].
    - congruence.
    - rewrite Hst in Hrendered. discriminate.
    - lia.
    - lia. }
  split; [lia |].
  assert (Hlo : (video_start_line (current_timing d) <=? current_line d)
                = true) by (apply Z.leb_le; lia).
  assert (Hhi : (current_line d <=? video_end_line (current_timing d))
                = true) by (apply Z.leb_le; lia).
  rewrite Hlo, Hhi. cbn [andb].
  rewrite u32_small by lia. reflexivity.
Qed.

Lemma pend_sv_render_visible_line_witness :
  0 <= 7 - 6 < 10 - 6 /\
  @pend_sv_render solid_fill 1 render_example
  = match get_next_rasterizer 1 render_example with
    | None => None
    | Some (r, dm) =>
        if negb (r =? 0) then
          let '(shape, w) := @rasterize solid_fill r (7 - 6) (working dm) in
          Some (set_working_buffer_shape shape (set_working w dm))
        else Some dm
    end.
Proof.
  assert (Hok : line_state_ok render_example).
  { right; right; right. split; [cbn; lia | reflexivity]. }
  exact (@pend_sv_render_visible_line solid_fill 1 render_example
           small_timing_distinct Hok).
Defined.

(** ** Activation: the rows and the timers *)

Lemma store_pixel_length (row : list Z) (i v : Z) :
  List.length (store_pixel row i v) = List.length row.
Proof.
  unfold store_pixel.
  destruct ((0 <=? i) && (i <? Z.of_nat (List.length row))) eqn:Hin;
    [| reflexivity].
  apply andb_true_iff in Hin. destruct Hin as [Hlo Hhi].
  apply Z.leb_le in Hlo. apply Z.ltb_lt in Hhi.
  rewrite length_app, length_firstn, length_cons, length_skipn. lia.
Qed.

Lemma store_pixel_same (row : list Z) (i v : Z) :
  0 <= i < Z.of_nat (List.length row) ->
  nth (Z.to_nat i) (store_pixel row i v) 0 = v.
Proof.
  intros Hi. unfold store_pixel.
  assert (Hin : (0 <=? i) && (i <? Z.of_nat (List.length row)) = true).
  { apply andb_true_iff. split; [apply Z.leb_le | apply Z.ltb_lt]; lia. }
  rewrite Hin.
  assert (Hlen : List.length (firstn (Z.to_nat i) row) = Z.to_nat i)
    by (apply length_firstn_le; lia).
  rewrite <- Hlen at 1. rewrite <- (Nat.add_0_r (List.length _)).
  rewrite app_nth2_plus. reflexivity.
Qed.

Lemma store_pixel_other (row : list Z) (i v : Z) (j : nat) :
  Z.of_nat j <> i ->
  nth j (store_pixel row i v) 0 = nth j row 0.
Proof.
  intros Hj. unfold store_pixel.
  destruct ((0 <=? i) && (i <? Z.of_nat (List.length row))) eqn:Hin;
    [| reflexivity].
  apply andb_true_iff in Hin. destruct Hin as [Hlo Hhi].
  apply Z.leb_le in Hlo. apply Z.ltb_lt in Hhi.
  assert (Hlen : List.length (firstn (Z.to_nat i) row) = Z.to_nat i)
    by (apply length_firstn_le; lia).
  destruct (Nat.lt_ge_cases j (Z.to_nat i)) as [Hlt | Hge].
  - rewrite app_nth1 by lia. rewrite nth_firstn.
    apply Nat.ltb_lt in Hlt. rewrite Hlt. reflexivity.
  - rewrite app_nth2 by lia. rewrite Hlen.
    destruct (j - Z.to_nat i)%nat as [| k] eqn:Hk; [lia |].
    cbn [nth]. rewrite nth_skipn. f_equal. lia.
Qed.

Lemma scribble_length (n : nat) : List.length (scribble n) = (2 * n)%nat.
Proof. induction n as [| n IH]; simpl; [reflexivity | rewrite IH; lia]. Qed.

Lemma scribble_nth (n : nat) :
  forall i, (i < 2 * n)%nat ->
            nth i (scribble n) 0 = if Nat.even i then 255 else 0.
Proof.
  induction n as [| n IH]; intros i Hi; [lia |].
  destruct i as [| [| i]]; [reflexivity | reflexivity |].
  change (nth (S (S i)) (scribble (S n)) 0) with (nth i (scribble n) 0).
  rewrite Nat.even_succ_succ. apply IH. lia.
Qed.

(** X8.  Activation and the rows: with rows of the declared sizes and at
    most 800 visible pixels, [configure_timing] keeps the sizes, fills the
    working row with the alternating pattern 0xFF, 0x00, zeroes the four
    scan-row pixels from index [video_pixels] on and leaves every other
    scan-row pixel alone; it does not touch the vertical state, the
    installed band list or the band being scanned. *)
Theorem configure_timing_rows (t : Timing) (d : Vga) :
  rows_ok d ->
  0 <= video_pixels t <= max_pixels_per_line ->
  let d' := configure_timing t d in
  rows_ok d' /\
  (forall i, (i < 800)%nat ->
             nth i (buffer (working d')) 0
             = if Nat.even i then 255 else 0) /\
  (forall i, video_pixels t <= Z.of_nat i < video_pixels t + 4 ->
             nth i (scan_buffer d') 0 = 0) /\
  (forall i, Z.of_nat i < video_pixels t
             \/ video_pixels t + 4 <= Z.of_nat i ->
             nth i (scan_buffer d') 0 = nth i (scan_buffer d) 0) /\
  state d' = state d /\
  band_list_head d' = band_list_head d /\
  band_list_taken d' = band_list_taken d /\
  current_band d' = current_band d.
Proof.
  intros [Hscan Hwork] Hvp. cbv zeta.
  unfold max_pixels_per_line in *.
  change (Z.to_nat (800 + 4)) with 804%nat in Hscan.
  set (vp := video_pixels t) in *.
  set (s0 := scan_buffer d) in *.
  set (s1 := store_pixel s0 (vp + 0) 0).
  set (s2 := store_pixel s1 (vp + 1) 0).
  set (s3 := store_pixel s2 (vp + 2) 0).
  set (s4 := store_pixel s3 (vp + 3) 0).
  assert (Hfinal : scan_buffer (configure_timing t d) = s4) by reflexivity.
  assert (Hbuf : buffer (working (configure_timing t d)) = scribble 400)
    by reflexivity.
  assert (L1 : List.length s1 = 804%nat)
    by (unfold s1; rewrite store_pixel_length; exact Hscan).
  assert (L2 : List.length s2 = 804%nat)
    by (unfold s2; rewrite store_pixel_length; exact L1).
  assert (L3 : List.length s3 = 804%nat)
    by (unfold s3; rewrite store_pixel_length; exact L2).
  assert (L4 : List.length s4 = 804%nat)
    by (unfold s4; rewrite store_pixel_length; exact L3).
  split; [| split; [| split; [| split]]].
  - split.
    + rewrite Hfinal. exact L4.
    + rewrite Hbuf, scribble_length. reflexivity.
  - intros i Hi. rewrite Hbuf. apply scribble_nth. lia.
  - intros i Hi. rewrite Hfinal.
    destruct (Z.eq_dec (Z.of_nat i) (vp + 3)) as [E3 | N3].
    { replace i with (Z.to_nat (vp + 3)) by lia.
      unfold s4. apply store_pixel_same. lia. }
    unfold s4. rewrite store_pixel_other by exact N3.
    destruct (Z.eq_dec (Z.of_nat i) (vp + 2)) as [E2 | N2].
    { replace i with (Z.to_nat (vp + 2)) by lia.
      unfold s3. apply store_pixel_same. lia. }
    unfold s3. rewrite store_pixel_other by exact N2.
    destruct (Z.eq_dec (Z.of_nat i) (vp + 1)) as [E1 | N1].
    { replace i with (Z.to_nat (vp + 1)) by lia.
      unfold s2. apply store_pixel_same. lia. }
    unfold s2. rewrite store_pixel_other by exact N1.
    replace i with (Z.to_nat (vp + 0)) by lia.
    unfold s1. apply store_pixel_same. lia.
  - intros i Hi. rewrite Hfinal. unfold s4, s3, s2, s1.
    rewrite !store_pixel_other by lia. reflexivity.
  - repeat split.
Qed.

Lemma power_on_rows_ok : rows_ok power_on.
Proof. split; reflexivity. Qed.

Lemma configure_timing_rows_witness :
  rows_ok (configure_timing small_timing power_on) /\
  nth 61 (scan_buffer (configure_timing small_timing power_on)) 0 = 0 /\
  nth 7 (buffer (working (configure_timing small_timing power_on))) 0
  = (if Nat.even 7 then 255 else 0).
Proof.
  assert (Hvp : 0 <= video_pixels small_timing <= max_pixels_per_line)
    by (unfold max_pixels_per_line; simpl; lia).
  pose proof (configure_timing_rows small_timing power_on
                power_on_rows_ok Hvp) as Hrows.
  cbv zeta in Hrows.
  destruct Hrows as (Hok & Hpattern & Hblank & _).
  split; [exact Hok |]. split.
  - apply (Hblank 61%nat). simpl. lia.
  - apply (Hpattern 7%nat). lia.
Defined.

(** X9.  Activation and the compare registers, for every 16-bit profile
    whose lead does not exceed sync plus back porch: tim4 is left with
    prescaler 1, period [line_pixels - 1] and the thresholds [sync],
    [sync + back_porch - lead] and [sync + back_porch + video]; tim3's
    second threshold is 7 less, and wraps around to
    [2^32 - 7 + (sync + back_porch - lead)] when the threshold is below
    7. *)
Theorem configure_timing_registers (t : Timing) (d : Vga) :
  Timing_ok t ->
  1 <= line_pixels t ->
  video_lead t <= sync_pixels t + back_porch_pixels t ->
  let d' := configure_timing t d in
  let second := sync_pixels t + back_porch_pixels t - video_lead t in
  tim4 d'
  = mkGpTimer 1 (line_pixels t - 1) (sync_pixels t) second
      (sync_pixels t + back_porch_pixels t + video_pixels t) /\
  psc (tim3 d') = 1 /\ arr (tim3 d') = line_pixels t - 1 /\
  ccr1 (tim3 d') = sync_pixels t /\
  ccr3 (tim3 d') = sync_pixels t + back_porch_pixels t + video_pixels t /\
  ccr2 (tim3 d')
  = (if second <? 7 then 2 ^ 32 - 7 + second else second - 7).
Proof.
  intros Hok Hpixels Hlead. cbv zeta.
  destruct Hok as (H1 & H2 & H3 & H4 & H5 & _). unfold is_u16 in *.
  destruct (configure_timing_timers t d) as [Htim4 Htim3].
  rewrite Htim4, Htim3.
  unfold configure_h_timer, write_ccr2.
  cbn [psc arr ccr1 ccr2 ccr3].
  assert (Harr : u32 (line_pixels t - 1) = line_pixels t - 1)
    by (apply u32_small; lia).
  assert (Hc1 : u32 (sync_pixels t) = sync_pixels t)
    by (apply u32_small; lia).
  assert (Hc2 : u32 (sync_pixels t + back_porch_pixels t - video_lead t)
                = sync_pixels t + back_porch_pixels t - video_lead t)
    by (apply u32_small; lia).
  assert (Hc3 : u32 (sync_pixels t + back_porch_pixels t + video_pixels t)
                = sync_pixels t + back_porch_pixels t + video_pixels t)
    by (apply u32_small; lia).
  change (u32 (2 - 1)) with 1.
  rewrite Harr, Hc1, !Hc2, Hc3.
  repeat split.
  destruct (Z.ltb_spec
              (sync_pixels t + back_porch_pixels t - video_lead t) 7)
    as [Hshort | Hlong].
  - unfold u32.
    replace (sync_pixels t + back_porch_pixels t - video_lead t - 7)
      with (2 ^ 32 - 7
            + (sync_pixels t + back_porch_pixels t - video_lead t)
            + (-1) * 2 ^ 32) by lia.
    rewrite Z.mod_add by lia. apply Z.mod_small. lia.
  - apply u32_small. lia.
Qed.

Lemma short_sync_timing_ok : Timing_ok short_sync_timing.
Proof. unfold Timing_ok, is_u16. cbn. repeat split; lia. Qed.

Lemma configure_timing_registers_witness :
  ccr2 (tim4 (configure_timing short_sync_timing power_on)) = 2 + 8 - 5 /\
  ccr2 (tim3 (configure_timing short_sync_timing power_on))
  = 2 ^ 32 - 7 + (2 + 8 - 5).
Proof.
  assert (Hpixels : 1 <= line_pixels short_sync_timing) by (simpl; lia).
  assert (Hlead : video_lead short_sync_timing
                  <= sync_pixels short_sync_timing
                     + back_porch_pixels short_sync_timing)
    by (simpl; lia).
  pose proof (configure_timing_registers short_sync_timing power_on
                short_sync_timing_ok Hpixels Hlead) as Hregs.
  cbv zeta in Hregs.
  destruct Hregs as (Htim4 & _ & _ & _ & _ & Htim3).
  split.
  - rewrite Htim4. reflexivity.
  - rewrite Htim3. reflexivity.
Defined.

(** ** The rows under the handlers *)

Lemma start_of_active_video_rows (d : Vga) :
  scan_buffer (start_of_active_video d) = scan_buffer d /\
  working (start_of_active_video d) = working d /\
  working_buffer_shape (start_of_active_video d) = working_buffer_shape d.
Proof.
  unfold start_of_active_video.
  destruct (negb (is_displayed_state (state d))); repeat split.
Qed.

Lemma pend_sv_render_rows_fit `{R : Rasterizers} (fuel : nat) (d d' : Vga) :
  rasterizers_fit R ->
  rows_fit d ->
  pend_sv_render fuel d = Some d' ->
  rows_fit d'.
Proof.
  intros Hfit Hrows Hrun. unfold pend_sv_render in Hrun.
  destruct (is_rendered_state (state d));
    [| inversion Hrun; subst; exact Hrows].
  destruct ((video_start_line (current_timing d) <=? current_line d)
            && (current_line d <=? video_end_line (current_timing d)));
    [| inversion Hrun; subst; exact Hrows].
  destruct (get_next_rasterizer fuel d) as [[r dm] |] eqn:Hnext;
    [| discriminate].
  apply get_next_rasterizer_frame in Hnext.
  assert (Hdm : rows_fit dm) by (rewrite Hnext; exact Hrows).
  destruct (negb (r =? 0)); [| inversion Hrun; subst; exact Hdm].
  destruct Hdm as [[Hscan Hwork] Hlen].
  destruct (Hfit r (u32 (current_line d
                         - video_start_line (current_timing d)))
              (working dm) Hwork) as [Hbuf Hshape].
  destruct (rasterize r _ (working dm)) as [shape w].
  inversion Hrun; subst. simpl in Hbuf, Hshape.
  split; [split |]; assumption.
Qed.

Lemma run_handler_rows_fit `{R : Rasterizers}
    (fuel : nat) (e : Exception) (d d' : Vga) :
  rasterizers_fit R ->
  rows_fit d ->
  run_handler fuel e d = Some d' ->
  rows_fit d'.
Proof.
  intros Hfit Hrows Hrun.
  destruct e as [| cc2if cc3if |]; simpl in Hrun.
  - inversion Hrun; subst. exact Hrows.
  - inversion Hrun; subst. unfold etl_stm32f4xx_tim4_handler.
    destruct cc2if.
    + destruct (start_of_active_video_rows d) as (Hs & Hw & Hsh).
      unfold rows_fit, rows_ok. rewrite Hs, Hw, Hsh. exact Hrows.
    + destruct cc3if; [| exact Hrows].
      destruct (end_of_active_video_rows d) as (Hs & Hw & Hsh).
      unfold rows_fit, rows_ok. rewrite Hs, Hw, Hsh. exact Hrows.
  - unfold etl_armv7m_pend_sv_handler, vga_hblank_interrupt,
      default_hblank_interrupt in Hrun.
    apply (pend_sv_render_rows_fit fuel
             (pend_sv_flip (set_pendsv_pending false d)) d' Hfit);
      [| exact Hrun].
    unfold pend_sv_flip. cbn [state set_pendsv_pending].
    destruct (is_rendered_state (state d)); [| exact Hrows].
    destruct Hrows as [Hok Hlen]. split.
    + apply (flip_working_buffer_rows_ok (set_pendsv_pending false d));
        assumption.
    + exact Hlen.
Qed.

(** X10.  With rasterizers that return a working row of the declared size
    and a line length of at most 800, the handlers, run in any order from
    rows of the declared sizes, keep both rows at their sizes and the
    stored line length within the row; so the zero padding word of every
    hand-off lies inside the scan row. *)
Theorem handlers_keep_rows `{R : Rasterizers}
    (fuel : nat) (es : list Exception) :
  forall d d',
    rasterizers_fit R ->
    rows_fit d ->
    run_handlers fuel es d = Some d' ->
    rows_fit d' /\
    (copied_bytes d' + 4 <= List.length (scan_buffer d'))%nat.
Proof.
  induction es as [| e es IH]; intros d d' Hfit Hrows Hrun; simpl in Hrun.
  - inversion Hrun; subst. split; [exact Hrows |].
    destruct Hrows as [[Hscan _] Hlen].
    destruct (copied_bytes_bound d' Hlen) as [Hn _].
    rewrite Hscan. unfold max_pixels_per_line. simpl. lia.
  - destruct (run_handler fuel e d) as [d1 |] eqn:Hstep; [| discriminate].
    apply (IH d1 d' Hfit); [| exact Hrun].
    apply (run_handler_rows_fit fuel e d d1); assumption.
Qed.

Lemma solid_fill_fits : rasterizers_fit solid_fill.
Proof.
  intros r line w _. unfold rasterize, solid_fill.
  cbn [fst snd buffer length]. rewrite repeat_length.
  unfold max_pixels_per_line. split; [reflexivity | lia].
Qed.

Lemma handlers_keep_rows_witness :
  exists d',
    @run_handlers solid_fill 1 example_handlers render_example = Some d' /\
    rows_fit d' /\
    (copied_bytes d' + 4 <= List.length (scan_buffer d'))%nat.
Proof.
  assert (Hstart : rows_fit render_example).
  { split; [split; reflexivity |].
    unfold max_pixels_per_line. simpl. lia. }
  destruct (@run_handlers solid_fill 1 example_handlers render_example)
    as [d' |] eqn:Hrun; [| vm_compute in Hrun; discriminate].
  exists d'. split; [reflexivity |].
  exact (@handlers_keep_rows solid_fill 1 example_handlers
           render_example d' solid_fill_fits Hstart Hrun).
Defined.

(** X11.  The hand-off for any stored line length up to the row size:
    it copies the whole words of the line ([4 * (length / 4)] bytes, so
    the last [length mod 4] pixels are left out), zeroes the four bytes
    after them, leaves the rest of the scan row as it was, and writes
    [length / 4 + 1] to the transfer count. *)
Theorem flip_working_buffer_whole_words (d : Vga) :
  rows_ok d ->
  0 <= length (working_buffer_shape d) <= max_pixels_per_line ->
  let words := length (working_buffer_shape d) / 4 in
  let d' := flip_working_buffer d in
  firstn (Z.to_nat (4 * words)) (scan_buffer d')
  = firstn (Z.to_nat (4 * words)) (buffer (working d)) /\
  firstn 4 (skipn (Z.to_nat (4 * words)) (scan_buffer d')) = [0; 0; 0; 0] /\
  skipn (Z.to_nat (4 * words) + 4) (scan_buffer d')
  = skipn (Z.to_nat (4 * words) + 4) (scan_buffer d) /\
  dma_ndtr d' = words + 1 /\
  rows_ok d'.
Proof.
  intros Hrows Hlen. cbv zeta.
  pose proof Hrows as [Hscan Hwork].
  destruct (copied_bytes_bound d Hlen) as [Hn Hn4].
  fold (copied_bytes d).
  assert (Hcopy : List.length (firstn (copied_bytes d) (buffer (working d)))
                  = copied_bytes d).
  { apply length_firstn_le. rewrite Hwork. cbn. lia. }
  rewrite flip_working_buffer_scan by assumption.
  split; [| split; [| split; [| split]]].
  - apply firstn_app_exact. exact Hcopy.
  - rewrite skipn_app_exact by exact Hcopy. reflexivity.
  - rewrite (skipn_app_plus _ _ (copied_bytes d) 4 Hcopy). reflexivity.
  - unfold flip_working_buffer, dma_write_ndtr. cbn.
    apply u32_small. unfold max_pixels_per_line in Hlen.
    assert (0 <= length (working_buffer_shape d) / 4 <= 200).
    { split; [apply Z.div_pos | apply Z.div_le_upper_bound]; lia. }
    lia.
  - apply flip_working_buffer_rows_ok; assumption.
Qed.

Lemma flip_working_buffer_whole_words_witness :
  firstn 12 (scan_buffer (flip_working_buffer ragged_example))
  = [255; 0; 255; 0; 255; 0; 255; 0; 0; 0; 0; 0] /\
  dma_ndtr (flip_working_buffer ragged_example) = 10 / 4 + 1.
Proof.
  assert (Hrows : rows_ok ragged_example) by (split; reflexivity).
  assert (Hlen : 0 <= length (working_buffer_shape ragged_example)
                 <= max_pixels_per_line)
    by (unfold max_pixels_per_line; simpl; lia).
  pose proof (flip_working_buffer_whole_words ragged_example Hrows Hlen)
    as Hflip.
  cbv zeta in Hflip. destruct Hflip as (_ & _ & _ & Hcount & _).
  split; [reflexivity | exact Hcount].
Defined.

(** ** The timers under the handlers *)

Lemma pend_sv_render_timers `{Rasterizers} (fuel : nat) (d d' : Vga) :
  pend_sv_render fuel d = Some d' ->
  tim3 d' = tim3 d /\ tim4 d' = tim4 d.
Proof.
  unfold pend_sv_render. intros Hrun.
  destruct (is_rendered_state (state d));
    [| inversion Hrun; subst; auto].
  destruct ((video_start_line (current_timing d) <=? current_line d)
            && (current_line d <=? video_end_line (current_timing d)));
    [| inversion Hrun; subst; auto].
  destruct (get_next_rasterizer fuel d) as [[r dm] |] eqn:Hnext;
    [| discriminate].
  apply get_next_rasterizer_frame in Hnext.
  destruct (negb (r =? 0)).
  - destruct (rasterize r _ (working dm)) as [shape w].
    inversion Hrun; subst. rewrite Hnext. cbn. auto.
  - inversion Hrun; subst. rewrite Hnext. cbn. auto.
Qed.

Lemma run_handler_timers `{Rasterizers}
    (fuel : nat) (e : Exception) (d d' : Vga) :
  run_handler fuel e d = Some d' ->
  tim3 d' = tim3 d /\
  psc (tim4 d') = psc (tim4 d) /\ arr (tim4 d') = arr (tim4 d) /\
  ccr1 (tim4 d') = ccr1 (tim4 d) /\ ccr3 (tim4 d') = ccr3 (tim4 d) /\
  (e <> Tim4Irq false true -> ccr2 (tim4 d') = ccr2 (tim4 d)).
Proof.
  destruct e as [| cc2if cc3if |]; simpl; intros Hrun.
  - inversion Hrun; subst. repeat split.
  - inversion Hrun; subst. unfold etl_stm32f4xx_tim4_handler.
    destruct cc2if.
    + unfold start_of_active_video.
      destruct (negb (is_displayed_state (state d))); repeat split.
    + destruct cc3if; [| repeat split].
      rewrite end_of_active_video_tim4.
      assert (Htim3 : tim3 (end_of_active_video d) = tim3 d).
      { unfold end_of_active_video. unfold_stores. cbn.
        split_tests; reflexivity. }
      rewrite Htim3. repeat split. intros Hne. congruence.
  - unfold etl_armv7m_pend_sv_handler, vga_hblank_interrupt,
      default_hblank_interrupt in Hrun.
    apply pend_sv_render_timers in Hrun. destruct Hrun as [H3 H4].
    rewrite H3, H4. unfold pend_sv_flip. cbn.
    destruct (is_rendered_state (state d)); repeat split.
Qed.

(** X12.  No handler reprograms the timers apart from the one register
    the end-of-active-video event corrects: after any handlers, in any
    order, tim3 is as it was, and so are tim4's prescaler, period, first
    and third thresholds; tim4's second threshold changes only in an
    end-of-active-video event. *)
Theorem handlers_keep_timers `{Rasterizers}
    (fuel : nat) (es : list Exception) :
  forall d d',
    run_handlers fuel es d = Some d' ->
    tim3 d' = tim3 d /\
    psc (tim4 d') = psc (tim4 d) /\ arr (tim4 d') = arr (tim4 d) /\
    ccr1 (tim4 d') = ccr1 (tim4 d) /\ ccr3 (tim4 d') = ccr3 (tim4 d) /\
    (~ In (Tim4Irq false true) es -> ccr2 (tim4 d') = ccr2 (tim4 d)).
Proof.
  induction es as [| e es IH]; intros d d' Hrun; simpl in Hrun.
  - inversion Hrun; subst. repeat split.
  - destruct (run_handler fuel e d) as [d1 |] eqn:Hstep; [| discriminate].
    apply run_handler_timers in Hstep.
    destruct Hstep as (S3 & Sp & Sa & S1 & Sc & S2).
    destruct (IH d1 d' Hrun) as (R3 & Rp & Ra & R1 & Rc & R2).
    repeat split; try congruence.
    intros Hnot.
    rewrite R2 by (intros Hin; apply Hnot; right; exact Hin).
    apply S2. intros He. apply Hnot. left. exact He.
Qed.

Lemma handlers_keep_timers_witness :
  exists d',
    @run_handlers solid_fill 1 example_handlers
      (configure_timing small_timing power_on) = Some d' /\
    tim3 d' = tim3 (configure_timing small_timing power_on) /\
    ccr3 (tim4 d') = ccr3 (tim4 (configure_timing small_timing power_on)).
Proof.
  destruct (@run_handlers solid_fill 1 example_handlers
              (configure_timing small_timing power_on)) as [d' |] eqn:Hrun;
    [| vm_compute in Hrun; discriminate].
  exists d'. split; [reflexivity |].
  destruct (@handlers_keep_timers solid_fill 1 example_handlers
              (configure_timing small_timing power_on) d' Hrun)
    as (H3 & _ & _ & _ & Hc3 & _).
  split; assumption.
Defined.

(** ** [clear_band_list] returns once the list is taken *)

Lemma steps_to_return_run `{Rasterizers} (fuel : nat) (sched : list Slot) :
  forall s s',
    after_taken s ->
    (steps_to_return (pc s) <= foreground_steps sched)%nat ->
    sys_run fuel sched s = Some s' ->
    pc s' = Returned.
Proof.
  induction sched as [| sl sched IH]; intros s s' Hafter Hsteps Hrun;
    simpl in Hrun.
  - inversion Hrun; subst. destruct Hafter as [[Hwait | Hret] _].
    + destruct (pc s'); simpl in *; try discriminate; lia.
    + exact Hret.
  - destruct (sys_step fuel sl s) as [s1 |] eqn:Hstep; [| discriminate].
    pose proof (after_taken_step fuel sl s s1 Hafter Hstep) as Hafter1.
    apply (IH s1 s' Hafter1); [| exact Hrun].
    destruct sl as [| e]; simpl in Hstep, Hsteps.
    + inversion Hstep; subst. unfold clear_band_list_step.
      destruct Hafter as [Hpc Htaken].
      destruct (pc s) eqn:Epc; simpl in Hsteps, Hpc;
        try (destruct Hpc as [Hpc | Hpc]; discriminate);
        rewrite ?Htaken; simpl; rewrite ?Epc; simpl; lia.
    + destruct (run_handler fuel e (drv s)) as [d1 |]; [| discriminate].
      inversion Hstep; subst. simpl. exact Hsteps.
Qed.

(** X13.  Once the taken flag is set while [clear_band_list] is in its
    wait loop, the call returns after at most two more of its own
    accesses, whatever handlers run in between, and the flag is still set
    when it does. *)
Theorem clear_band_list_returns_once_taken `{Rasterizers}
    (fuel : nat) (sched : list Slot) (s s' : Sys) :
  waiting (pc s) = true ->
  band_list_taken (drv s) = true ->
  (2 <= foreground_steps sched)%nat ->
  sys_run fuel sched s = Some s' ->
  pc s' = Returned /\ band_list_taken (drv s') = true.
Proof.
  intros Hwait Htaken Hsteps Hrun.
  assert (Hafter : after_taken s) by (split; [left |]; assumption).
  split.
  - apply (steps_to_return_run fuel sched s s' Hafter); [| exact Hrun].
    destruct (pc s); simpl in *; try discriminate; lia.
  - apply (after_taken_run fuel sched s s' Hafter Hrun).
Qed.

Lemma clear_band_list_returns_once_taken_witness :
  exists s',
    @sys_run solid_fill 1 closing_schedule (mkSys AtWfi example_start)
    = Some s' /\
    pc s' = Returned /\ band_list_taken (drv s') = true.
Proof.
  destruct (@sys_run solid_fill 1 closing_schedule
              (mkSys AtWfi example_start)) as [s' |] eqn:Hrun;
    [| vm_compute in Hrun; discriminate].
  exists s'. split; [reflexivity |].
  apply (@clear_band_list_returns_once_taken solid_fill 1 closing_schedule
           (mkSys AtWfi example_start) s').
  - reflexivity.
  - reflexivity.
  - simpl. lia.
  - exact Hrun.
Defined.

(** ** [sync_to_vblank] *)

Lemma run_handler_in_vblank `{Rasterizers}
    (fuel : nat) (e : Exception) (d d' : Vga) :
  run_handler fuel e d = Some d' ->
  in_vblank d' = in_vblank d \/
  (e = Tim4Irq false true /\ d' = end_of_active_video d).
Proof.
  intros Hrun.
  destruct (run_handler_vertical fuel e d d' Hrun)
    as [(_ & Hline & Htiming) | Hevent].
  - left. unfold in_vblank. rewrite Hline, Htiming. reflexivity.
  - right. exact Hevent.
Qed.

Lemma before_vblank_step `{Rasterizers}
    (fuel : nat) (sl : Slot) (s s1 : VblankSys) :
  before_vblank s ->
  vblank_step fuel sl s = Some s1 ->
  before_vblank s1 \/
  (sl = Handler (Tim4Irq false true) /\
   (vpc s = AtWaitTest \/ vpc s = AtWaitWfi) /\
   in_vblank (vdrv s) = false /\
   in_vblank (end_of_active_video (vdrv s)) = true /\
   s1 = mkVblankSys (vpc s) (end_of_active_video (vdrv s))).
Proof.
  intros Hbefore Hstep. destruct sl as [| e]; simpl in Hstep.
  - inversion Hstep; subst. left. unfold sync_to_vblank_step, before_vblank.
    destruct Hbefore as [Hpc | [Hpc | [[Hpc | Hpc] Hout]]]; rewrite Hpc.
    + destruct (in_vblank (vdrv s)) eqn:Hin; simpl; auto.
    + simpl. auto.
    + rewrite Hout. simpl. auto.
    + simpl. right; right. split; [left; reflexivity | exact Hout].
  - destruct (run_handler fuel e (vdrv s)) as [d1 |] eqn:Hrun;
      [| discriminate].
    inversion Hstep; subst.
    destruct Hbefore as [Hpc | [Hpc | [Hpc Hout]]].
    + left. left. exact Hpc.
    + left. right; left. exact Hpc.
    + destruct (run_handler_in_vblank fuel e (vdrv s) d1 Hrun)
        as [Hsame | [He Hd1]].
      * left. right; right. split; [exact Hpc |]. simpl. congruence.
      * subst d1.
        destruct (in_vblank (end_of_active_video (vdrv s))) eqn:Hin.
        -- right. subst e.
           split; [reflexivity |]. split; [exact Hpc |].
           split; [exact Hout |]. split; reflexivity.
        -- left. right; right. split; [exact Hpc | exact Hin].
Qed.

(** X14.  [sync_to_vblank] waits for the beginning of a vertical
    blanking interval: in every interleaving of its accesses with the
    handlers, if it has returned then after its first loop had seen the
    frame outside the blanking interval, an end-of-active-video event
    moved the line counter from outside the interval into it. *)
Theorem sync_to_vblank_sees_blanking_begin `{Rasterizers}
    (fuel : nat) (sched : list Slot) :
  forall s s',
    before_vblank s ->
    vblank_run fuel sched s = Some s' ->
    vpc s' = VblankReturned ->
    exists pre post sa,
      sched = pre ++ Handler (Tim4Irq false true) :: post /\
      vblank_run fuel pre s = Some sa /\
      (vpc sa = AtWaitTest \/ vpc sa = AtWaitWfi) /\
      in_vblank (vdrv sa) = false /\
      in_vblank (end_of_active_video (vdrv sa)) = true /\
      vblank_run fuel post
        (mkVblankSys (vpc sa) (end_of_active_video (vdrv sa))) = Some s'.
Proof.
  induction sched as [| sl sched IH]; intros s s' Hbefore Hrun Hret;
    simpl in Hrun.
  - inversion Hrun; subst.
    destruct Hbefore as [Hpc | [Hpc | [[Hpc | Hpc] _]]];
      rewrite Hret in Hpc; discriminate.
  - destruct (vblank_step fuel sl s) as [s1 |] eqn:Hstep; [| discriminate].
    destruct (before_vblank_step fuel sl s s1 Hbefore Hstep)
      as [Hbefore1 | (Hsl & Hpc & Hout & Hin & Hs1)].
    + destruct (IH s1 s' Hbefore1 Hrun Hret)
        as (pre & post & sa & Hsched & Hpre & Hrest).
      exists (sl :: pre), post, sa. split; [rewrite Hsched; reflexivity |].
      split; [simpl; rewrite Hstep; exact Hpre | exact Hrest].
    + exists [], sched, s. subst s1.
      split; [rewrite Hsl; reflexivity |].
      repeat split; assumption.
Qed.

Lemma vblank_schedule_returns :
  @vblank_run solid_fill 1 vblank_schedule
    (mkVblankSys AtSyncTest (configure_timing small_timing power_on))
  = Some vblank_final /\
  vpc vblank_final = VblankReturned.
Proof. split; [vm_compute; reflexivity | reflexivity]. Defined.

Lemma sync_to_vblank_sees_blanking_begin_witness :
  exists pre post sa,
    vblank_schedule = pre ++ Handler (Tim4Irq false true) :: post /\
    @vblank_run solid_fill 1 pre
      (mkVblankSys AtSyncTest (configure_timing small_timing power_on))
    = Some sa /\
    (vpc sa = AtWaitTest \/ vpc sa = AtWaitWfi) /\
    in_vblank (vdrv sa) = false /\
    in_vblank (end_of_active_video (vdrv sa)) = true /\
    @vblank_run solid_fill 1 post
      (mkVblankSys (vpc sa) (end_of_active_video (vdrv sa)))
    = Some vblank_final.
Proof.
  apply (@sync_to_vblank_sees_blanking_begin solid_fill 1 vblank_schedule
           (mkVblankSys AtSyncTest (configure_timing small_timing power_on))
           vblank_final).
  - left. reflexivity.
  - exact (proj1 vblank_schedule_returns).
  - exact (proj2 vblank_schedule_returns).
Defined.

(** ** Hand-offs and transfers in a frame *)

Lemma transfers_app (l1 l2 : list Event) :
  transfers (l1 ++ l2) = (transfers l1 + transfers l2)%nat.
Proof.
  induction l1 as [| e l1 IH]; [reflexivity |].
  destruct e; simpl; rewrite IH; reflexivity.
Qed.

Lemma end_of_active_video_counts (d : Vga) :
  handoffs (log (end_of_active_video d)) = handoffs (log d) /\
  transfers (log (end_of_active_video d)) = transfers (log d).
Proof.
  destruct (end_of_active_video_log d) as [events [Hlog Hvertical]].
  cbv zeta in Hlog. rewrite Hlog.
  rewrite handoffs_app, transfers_app. simpl.
  rewrite handoffs_app, transfers_app. simpl.
  assert (Hnone : handoffs events = O /\ transfers events = O).
  { clear Hlog. induction events as [| e events IH]; [split; reflexivity |].
    simpl in Hvertical. apply andb_true_iff in Hvertical.
    destruct Hvertical as [He Hrest]. specialize (IH Hrest).
    destruct e; simpl in *; try discriminate; exact IH. }
  destruct Hnone as [Hh Ht]. rewrite Hh, Ht. lia.
Qed.

Lemma start_of_active_video_counts (d : Vga) :
  handoffs (log (start_of_active_video d)) = handoffs (log d) /\
  transfers (log (start_of_active_video d))
  = (transfers (log d) + (if is_displayed_state (state d) then 1 else 0))%nat
  /\
  state (start_of_active_video d) = state d /\
  current_line (start_of_active_video d) = current_line d /\
  current_timing (start_of_active_video d) = current_timing d.
Proof.
  unfold start_of_active_video.
  destruct (is_displayed_state (state d)); simpl.
  - rewrite !handoffs_app, !transfers_app. simpl. repeat split; lia.
  - repeat split; lia.
Qed.

Lemma pend_sv_handler_counts `{Rasterizers} (fuel : nat) (d d' : Vga) :
  etl_armv7m_pend_sv_handler fuel d = Some d' ->
  handoffs (log d')
  = (handoffs (log d) + (if is_rendered_state (state d) then 1 else 0))%nat
  /\
  transfers (log d') = transfers (log d) /\
  state d' = state d /\ current_line d' = current_line d /\
  current_timing d' = current_timing d.
Proof.
  intros Hrun. split; [apply (pend_sv_handler_handoffs fuel d d' Hrun) |].
  unfold etl_armv7m_pend_sv_handler, vga_hblank_interrupt,
    default_hblank_interrupt in Hrun.
  pose proof (pend_sv_render_frame fuel _ d' Hrun) as (Hlog & _).
  apply pend_sv_render_vertical in Hrun.
  destruct Hrun as (Hstate & Hline & Htiming).
  rewrite Hlog, Hstate, Hline, Htiming. unfold pend_sv_flip.
  destruct (is_rendered_state (state d)).
  - rewrite flip_working_buffer_log, transfers_app. simpl.
    repeat split. lia.
  - repeat split.
Qed.

(* The states a run of events visits depend on the state, the counter and
   the profile only. *)
Lemma states_visited_vertical (n : nat) :
  forall d1 d2,
    state d1 = state d2 ->
    current_line d1 = current_line d2 ->
    current_timing d1 = current_timing d2 ->
    states_visited n d1 = states_visited n d2.
Proof.
  induction n as [| n IH]; intros d1 d2 Hstate Hline Htiming;
    [reflexivity |].
  assert (Hs : state (end_of_active_video d1)
               = state (end_of_active_video d2))
    by (rewrite !end_of_active_video_state, Hstate, Hline, Htiming;
        reflexivity).
  simpl. rewrite Hs. f_equal. apply IH.
  - exact Hs.
  - rewrite !end_of_active_video_line, Hline, Htiming. reflexivity.
  - rewrite !end_of_active_video_timing. exact Htiming.
Qed.

Lemma run_lines_vertical (n : nat) :
  forall d1 d2,
    state d1 = state d2 ->
    current_line d1 = current_line d2 ->
    current_timing d1 = current_timing d2 ->
    state (run_lines n d1) = state (run_lines n d2) /\
    current_line (run_lines n d1) = current_line (run_lines n d2).
Proof.
  induction n as [| n IH]; intros d1 d2 Hstate Hline Htiming;
    [split; assumption |].
  simpl. apply IH.
  - rewrite !end_of_active_video_state, Hstate, Hline, Htiming. reflexivity.
  - rewrite !end_of_active_video_line, Hline, Htiming. reflexivity.
  - rewrite !end_of_active_video_timing. exact Htiming.
Qed.

Lemma states_visited_succ (n : nat) (d : Vga) :
  states_visited (S n) d
  = state (end_of_active_video d)
      :: states_visited n (end_of_active_video d).
Proof. reflexivity. Qed.

Lemma run_periods_succ `{Rasterizers} (fuel n : nat) (d : Vga) :
  run_periods fuel (S n) d
  = match etl_armv7m_pend_sv_handler fuel (end_of_active_video d) with
    | Some d1 => run_periods fuel n (start_of_active_video d1)
    | None => None
    end.
Proof. reflexivity. Qed.

(* One line period: what it adds to the counts, and its vertical
   state. *)
Lemma line_period_counts `{Rasterizers} (fuel : nat) (d d1 : Vga) :
  etl_armv7m_pend_sv_handler fuel (end_of_active_video d) = Some d1 ->
  handoffs (log (start_of_active_video d1))
  = (handoffs (log d)
     + (if is_rendered_state (state (end_of_active_video d))
        then 1 else 0))%nat /\
  transfers (log (start_of_active_video d1))
  = (transfers (log d)
     + (if is_displayed_state (state (end_of_active_video d))
        then 1 else 0))%nat /\
  state (start_of_active_video d1) = state (end_of_active_video d) /\
  current_line (start_of_active_video d1)
  = current_line (end_of_active_video d) /\
  current_timing (start_of_active_video d1)
  = current_timing (end_of_active_video d).
Proof.
  intros Hpend.
  destruct (pend_sv_handler_counts fuel _ d1 Hpend)
    as (Ph & Pt & Ps & Pl & Pc).
  destruct (start_of_active_video_counts d1) as (Sh & St & Ss & Sl & Sc).
  destruct (end_of_active_video_counts d) as (Eh & Et).
  rewrite Sh, St, Ss, Sl, Sc, Ph, Pt, Ps, Pl, Pc, Eh, Et.
  repeat split.
Qed.

Lemma run_periods_counts `{Rasterizers} (fuel : nat) (n : nat) :
  forall d d',
    run_periods fuel n d = Some d' ->
    handoffs (log d')
    = (handoffs (log d)
       + List.length (filter is_rendered_state (states_visited n d)))%nat /\
    transfers (log d')
    = (transfers (log d)
       + List.length (filter is_displayed_state (states_visited n d)))%nat /\
    state d' = state (run_lines n d) /\
    current_line d' = current_line (run_lines n d).
Proof.
  induction n as [| n IH]; intros d d' Hrun.
  - inversion Hrun; subst. simpl. repeat split; lia.
  - rewrite run_periods_succ in Hrun.
    destruct (etl_armv7m_pend_sv_handler fuel (end_of_active_video d))
      as [d1 |] eqn:Hpend; [| discriminate].
    destruct (line_period_counts fuel d d1 Hpend)
      as (Lh & Lt & Vs & Vl & Vc).
    destruct (IH _ d' Hrun) as (Ih & It & Is & Il).
    destruct (run_lines_vertical n _ _ Vs Vl Vc) as [Rs Rl].
    rewrite (states_visited_vertical n _ _ Vs Vl Vc) in Ih, It.
    rewrite states_visited_succ.
    change (run_lines (S n) d) with (run_lines n (end_of_active_video d)).
    rewrite Ih, It, Is, Il, Lh, Lt, Rs, Rl.
    cbn [filter].
    destruct (is_rendered_state (state (end_of_active_video d))),
             (is_displayed_state (state (end_of_active_video d)));
      cbn [List.length]; repeat split; lia.
Qed.

Lemma filter_repeat {A : Type} (p : A -> bool) (x : A) (n : nat) :
  List.length (filter p (repeat x n)) = if p x then n else O.
Proof.
  induction n as [| n IH]; simpl.
  - destruct (p x); reflexivity.
  - destruct (p x) eqn:Hp; simpl; [rewrite IH; reflexivity | exact IH].
Qed.

(** X15.  A frame of line periods (end-of-active-video event, PendSV,
    start-of-active-video event) on a profile with distinct threshold
    lines, started on line 0: the PendSV handler performs as many
    hand-offs, and the start-of-active-video event starts as many
    transfers, as the profile has visible lines
    ([video_end_line - video_start_line]); the frame ends on line 0 in
    state Finishing. *)
Theorem frame_hands_off_every_visible_line `{Rasterizers}
    (fuel : nat) (d d' : Vga) :
  distinct_lines (current_timing d) ->
  current_line d = 0 ->
  run_periods fuel (Z.to_nat (video_end_line (current_timing d))) d
  = Some d' ->
  let visible := Z.to_nat (video_end_line (current_timing d)
                           - video_start_line (current_timing d)) in
  handoffs (log d') = (handoffs (log d) + visible)%nat /\
  transfers (log d') = (transfers (log d) + visible)%nat /\
  state d' = finishing /\ current_line d' = 0.
Proof.
  intros Hdistinct Hzero Hrun. cbv zeta.
  destruct (distinct_lines_bounds _ Hdistinct) as (H2 & Hlt & _).
  destruct (frame_run d Hdistinct Hzero) as (Hvisited & Hstate & Hline).
  destruct (run_periods_counts fuel _ d d' Hrun) as (Hh & Ht & Hs & Hl).
  rewrite Hvisited in Hh, Ht.
  rewrite filter_app, length_app, filter_repeat in Hh, Ht.
  simpl in Hh, Ht.
  rewrite filter_app, length_app, filter_repeat in Hh, Ht.
  simpl in Hh, Ht.
  repeat split.
  - rewrite Hh. lia.
  - rewrite Ht. lia.
  - congruence.
  - congruence.
Qed.

Lemma frame_hands_off_every_visible_line_witness :
  exists d',
    @run_periods solid_fill 1 10 (configure_timing small_timing power_on)
    = Some d' /\
    handoffs (log d') = 4%nat /\ transfers (log d') = 4%nat.
Proof.
  destruct (@run_periods solid_fill 1 10
              (configure_timing small_timing power_on)) as [d' |] eqn:Hrun;
    [| vm_compute in Hrun; discriminate].
  exists d'. split; [reflexivity |].
  destruct (@frame_hands_off_every_visible_line solid_fill 1
              (configure_timing small_timing power_on) d'
              small_timing_distinct eq_refl Hrun) as (Hh & Ht & _).
  split; [exact Hh | exact Ht].
Defined.
